(** * DYAD wrapper: the interposition and coordination engine of
      [src/wrapper/wrapper.c], embedded in Rocq.

    Conventions of the embedding.
    - Unsigned C integers ([uint32_t], [uint64_t], [size_t]) are values of
      [N]; the wrap-around of a w-bit type is written out with [u32] and
      [u64].  Signed [int]s are values of [Z].
    - A C string is the list of characters in front of its terminator;
      a character buffer is a [list ascii] holding every byte of the array,
      terminators included, and [c_str] reads the string it holds.
    - The file is compiled as written, that is with [DYAD_PERFFLOW],
      [DYAD_FULL_DEBUG] and [DYAD_LOGGING_ON] undefined; the two switches
      that change what the hooks do to files, [DYAD_SYNC_DIR] and
      [DYAD_SYNC_START], are parameters of the model.  Diagnostic output
      ([DPRINTF], [IPRINTF], [FLUX_LOG_INFO], [FLUX_LOG_ERR]) is not
      modelled. *)

From Stdlib Require Import ZArith NArith Ascii String Lia.
From stdpp Require Import base tactics option list.

Local Open Scope N_scope.

(** ** Machine integers *)

Definition u32 (x : N) : N := x mod 2 ^ 32.
Definition u64 (x : N) : N := x mod 2 ^ 64.

(** [(uint32_t) i] for an [int] [i]. *)
Definition u32_of_int (i : Z) : N := Z.to_N (i mod 2 ^ 32)%Z.

(** ** C strings and character buffers *)

Definition NUL : ascii := Ascii.zero.

(** The string held by a buffer: the characters in front of the first
    terminator. *)
Fixpoint c_str (l : list ascii) : list ascii :=
  match l with
  | [] => []
  | c :: r => if Ascii.eqb c NUL then [] else c :: c_str r
  end.

Definition strlen (l : list ascii) : nat := length (c_str l).

(** [memset (buf, '\0', n)] on a fresh array of [n] bytes. *)
Definition zeroed (n : nat) : list ascii := replicate n NUL.

(** [snprintf (buf + off, size, ...)] where the formatted text is [s]:
    at most [size - 1] characters of [s] are stored, then a terminator;
    with [size = 0] nothing is stored.  The value returned is the length
    of the whole text. *)
Definition snprintf (buf : list ascii) (off size : N) (s : list ascii)
  : list ascii * Z :=
  (if size =? 0 then buf
   else list_inserts (N.to_nat off)
          (take (N.to_nat (size - 1)) s ++ [NUL]) buf,
   Z.of_nat (length s)).

(** ["%x"]: lower-case hexadecimal without leading zeros.  A [uint32_t]
    has at most eight digits. *)
Definition hex_digit (v : N) : ascii :=
  nth (N.to_nat v) (list_ascii_of_string "0123456789abcdef") "f"%char.

Fixpoint hex_rev (fuel : nat) (v : N) : list ascii :=
  match fuel with
  | O => []
  | S f =>
      hex_digit (v mod 16) :: (if v / 16 =? 0 then [] else hex_rev f (v / 16))
  end.

Definition fmt_x (v : N) : list ascii := rev (hex_rev 8 v).

(** ** The 128-bit hash

    [MurmurHash3_x64_128] is declared in [murmur3.h]; [gen_path_key] only
    needs its result, four [uint32_t] words. *)

Record hash128 := Hash128 { hash0 : N; hash1 : N; hash2 : N; hash3 : N }.

Class Murmur3 := MurmurHash3_x64_128 : list ascii -> Z -> N -> hash128.

Module Murmur.

(** Modelled from the spec: [MurmurHash3_x64_128] of [murmur3.c], which is
    not part of the sources at hand.  The spec names it (MurmurHash3, the
    128-bit x64 variant); this is that public algorithm, stored as four
    [uint32_t] words on a little-endian host. *)

Definition ROTL64 (x r : N) : N :=
  u64 (N.lor (N.shiftl x r) (N.shiftr x (64 - r))).

Definition fmix64 (k : N) : N :=
  let k := N.lxor k (N.shiftr k 33) in
  let k := u64 (k * 0xff51afd7ed558ccd) in
  let k := N.lxor k (N.shiftr k 33) in
  let k := u64 (k * 0xc4ceb9fe1a85ec53) in
  N.lxor k (N.shiftr k 33).

Definition c1 : N := 0x87c37b91114253d5.
Definition c2 : N := 0x4cf5ad432745937f.

(** Little-endian load of up to eight bytes. *)
Fixpoint getblock64 (bs : list ascii) : N :=
  match bs with
  | [] => 0
  | b :: r => N.lor (N_of_ascii b) (N.shiftl (getblock64 r) 8)
  end.

Definition mix_k1 (k1 : N) : N := u64 (ROTL64 (u64 (k1 * c1)) 31 * c2).
Definition mix_k2 (k2 : N) : N := u64 (ROTL64 (u64 (k2 * c2)) 33 * c1).

Fixpoint body (nblocks : nat) (data : list ascii) (h1 h2 : N)
  : N * N * list ascii :=
  match nblocks with
  | O => (h1, h2, data)
  | S n =>
      let k1 := getblock64 (take 8 data) in
      let k2 := getblock64 (take 8 (drop 8 data)) in
      let h1 := N.lxor h1 (mix_k1 k1) in
      let h1 := u64 (ROTL64 h1 27 + h2) in
      let h1 := u64 (h1 * 5 + 0x52dce729) in
      let h2 := N.lxor h2 (mix_k2 k2) in
      let h2 := u64 (ROTL64 h2 31 + h1) in
      let h2 := u64 (h2 * 5 + 0x38495ab5) in
      body n (drop 16 data) h1 h2
  end.

Definition hash (key : list ascii) (len : Z) (seed : N) : hash128 :=
  let data := take (Z.to_nat len) key in
  let '(h1, h2, tail) := body (Z.to_nat (len / 16)) data seed seed in
  let rem := length tail in
  let h2 := if (9 <=? rem)%nat
            then N.lxor h2 (mix_k2 (getblock64 (drop 8 tail))) else h2 in
  let h1 := if (1 <=? rem)%nat
            then N.lxor h1 (mix_k1 (getblock64 (take 8 tail))) else h1 in
  let h1 := N.lxor h1 (Z.to_N len) in
  let h2 := N.lxor h2 (Z.to_N len) in
  let h1 := u64 (h1 + h2) in
  let h2 := u64 (h2 + h1) in
  let h1 := fmix64 h1 in
  let h2 := fmix64 h2 in
  let h1 := u64 (h1 + h2) in
  let h2 := u64 (h2 + h1) in
  Hash128 (u32 h1) (N.shiftr h1 32) (u32 h2) (N.shiftr h2 32).

Definition murmur3 : Murmur3 := hash.

End Murmur.

(** ** [gen_path_key] *)

Definition seeds : list N :=
  [104677; 104681; 104683; 104693; 104701;
   104707; 104711; 104717; 104723; 104729].

(** What a call of [gen_path_key] does: it returns [rc], leaving [path_key]
    as given ([None] is the null pointer), or the division [% width] by
    zero stops the process. *)
Inductive gpk_result :=
| Returned (rc : Z) (path_key : option (list ascii))
| DivByZero.

Section GenPathKey.
Context {H : Murmur3}.

(** The [for] loop, [iters] iterations from level [d] on. *)
Fixpoint gen_path_key_loop (str : list ascii) (len : N) (width : N)
    (iters : nat) (d : N) (seed : N) (cx : N) (path_key : list ascii)
  : gpk_result + (N * list ascii) :=
  match iters with
  | O => inr (cx, path_key)
  | S k =>
      let seed := u32 (seed + nth (N.to_nat (d mod 10)) seeds 0) in
      let hash := MurmurHash3_x64_128 str (Z.of_nat (strlen str)) seed in
      if width =? 0 then inl DivByZero else
      let bin :=
        N.lxor (N.lxor (N.lxor (hash0 hash) (hash1 hash)) (hash2 hash))
               (hash3 hash) mod width in
      let '(path_key, n) :=
        snprintf path_key cx (len - cx) (fmt_x bin ++ ["."%char]) in
      let cx := Z.to_N (Z.of_N cx + n) in
      if (len <=? cx) || (n <? 0)%Z
      then inl (Returned (-1) (Some path_key))
      else gen_path_key_loop str len width k (d + 1) seed cx path_key
  end.

Definition gen_path_key (str : string) (path_key : option (list ascii))
    (len : N) (depth width : N) : gpk_result :=
  let str := c_str (list_ascii_of_string str) in
  match path_key with
  | None => Returned (-1) None
  | Some path_key =>
      if len =? 0 then Returned (-1) (Some path_key) else
      let path_key := <[0%nat := NUL]> path_key in
      match gen_path_key_loop str len width (N.to_nat depth) 0 57 0 path_key with
      | inl r => r
      | inr (cx, path_key) =>
          let '(path_key, n) := snprintf path_key cx (len - cx) str in
          if (len <=? Z.to_N (Z.of_N cx + n)) || (n <? 0)%Z
          then Returned (-1) (Some path_key)
          else Returned 0 (Some path_key)
      end
  end.

End GenPathKey.

(** The key read back from the buffer after a call. *)
Definition key_of (r : gpk_result) : option string :=
  match r with
  | Returned _ (Some b) => Some (string_of_list_ascii (c_str b))
  | _ => None
  end.

Definition rc_of (r : gpk_result) : option Z :=
  match r with
  | Returned rc _ => Some rc
  | DivByZero => None
  end.

(** ** What the loop writes *)

Section KeyText.
Context {H : Murmur3}.

(** [(hash[0] ^ hash[1] ^ hash[2] ^ hash[3]) % width] for a seed. *)
Definition bin_of (str : list ascii) (width seed : N) : N :=
  let hash := MurmurHash3_x64_128 str (Z.of_nat (strlen str)) seed in
  N.lxor (N.lxor (N.lxor (hash0 hash) (hash1 hash)) (hash2 hash))
         (hash3 hash) mod width.

(** One level of the key: the bin in hexadecimal and a dot. *)
Definition level (str : list ascii) (width seed : N) : list ascii :=
  fmt_x (bin_of str width seed) ++ ["."%char].

(** The levels of a key whose level [i] is hashed with seed [seed_at i]. *)
Definition levels (seed_at : nat -> N) (str : list ascii) (depth : nat)
    (width : N) : list ascii :=
  concat (map (fun i => level str width (seed_at i)) (seq 0 depth)).

(** The text the loop formats, level by level, as the loop computes it. *)
Fixpoint loop_text (str : list ascii) (width : N) (iters : nat) (d seed : N)
  : list ascii :=
  match iters with
  | O => []
  | S k =>
      let seed := u32 (seed + nth (N.to_nat (d mod 10)) seeds 0) in
      level str width seed ++ loop_text str width k (d + 1) seed
  end.
End KeyText.

(** The sum of the first [n] entries of the seed schedule,
    [seeds[0 % 10] + ... + seeds[(n-1) % 10]]. *)
Fixpoint seed_sum (n : nat) : N :=
  match n with
  | O => 0
  | S k => seed_sum k + nth (k mod 10)%nat seeds 0
  end.

(** The seed the code hashes level [i] with: [seed] starts at 57 and
    [seed += seeds[d % 10]] runs at every level up to [i], in [uint32_t]. *)
Definition code_seed (i : nat) : N := u32 (57 + seed_sum (S i)).

(** The seed of level [i] as the specification describes it. *)
Definition spec_seed (i : nat) : N := 57 + nth (i mod 10)%nat seeds 0.

(** The key of the source and the key of the specification. *)
Definition code_key {H : Murmur3} (p : string) (depth width : N) : string :=
  let str := c_str (list_ascii_of_string p) in
  string_of_list_ascii (levels code_seed str (N.to_nat depth) width ++ str).

Definition spec_key {H : Murmur3} (p : string) (depth width : N) : string :=
  let str := c_str (list_ascii_of_string p) in
  string_of_list_ascii (levels spec_seed str (N.to_nat depth) width ++ str).

(** A buffer that holds the string [X]: [X], its terminator, and behind it
    the bytes [buf] had there. *)
Definition holds (buf X : list ascii) : list ascii :=
  X ++ NUL :: drop (S (length X)) buf.

(** ** Constants of the system headers (Linux values) *)

Definition PATH_MAX : N := 4096.
Definition O_RDONLY : Z := 0.
Definition O_WRONLY : Z := 1.
Definition O_ACCMODE : Z := 3.
Definition O_CREAT : Z := 64.
Definition EOF : Z := -1.

(** ** The context record and the external world *)

(** Opaque handles: a flux handle, a future, a KVS transaction, a stream. *)
Definition flux_t := N.
Definition future := N.
Definition txn_t := N.
Definition FILE := N.

(** [dyad_sync_ctx_t]; a null [h] is [None]. *)
Record dyad_sync_ctx_t := Ctx {
  h : option flux_t;
  debug : bool;
  check : bool;
  reenter : bool;
  initialized : bool;
  shared_storage : bool;
  sync_started : bool;
  key_depth : N;
  key_bins : N;
  rank : N;
  kvs_namespace : option string
}.

(** The compile-time switches the model keeps. *)
Class Build := { DYAD_SYNC_DIR : bool; DYAD_SYNC_START : bool }.

(** What [dyad.h] and [dyad_ctx.h] declare and [wrapper.c] uses: the
    initial value of a context and the names of three environment
    variables. *)
Class Headers := {
  dyad_sync_ctx_t_default : dyad_sync_ctx_t;
  DYAD_PATH_CONS_ENV : string;
  DYAD_PATH_PROD_ENV : string;
  DYAD_CHECK_ENV : string
}.

(** The calls that leave [wrapper.c], each with the type of what it hands
    back.  A pointer result is an [option] (the null pointer is [None]); a
    call that reports failure by a negative [int] and otherwise fills an
    output argument hands back an [option] of that output. *)
Inductive call : Type -> Type :=
(* libc *)
| c_getenv (name : string) : call (option string)
| c_setenv (name value : string) (overwrite : Z) : call Z
| c_malloc_ctx : call bool
| c_exit (code : Z) : call unit
| c_dlsym_next (name : string) : call bool
| c_real_open (path : string) (oflag mode : Z) : call Z
| c_real_fopen (path : option string) (mode : string) : call (option FILE)
| c_real_close (fd : Z) : call Z
| c_real_fclose (fp : option FILE) : call Z
| c_fsync (fd : Z) : call Z
| c_fflush (fp : option FILE) : call Z
| c_fileno (fp : option FILE) : call Z
| c_fcntl_getfl (fd : Z) : call Z
| c_fwrite (data : list ascii) (size nmemb : N) (fp : FILE) : call N
| c_dirname (path : string) : call string
| c_print_timestamp : call unit
(* utils.h *)
| c_enable_debug_dyad_utils : call unit
| c_disable_debug_dyad_utils : call unit
| c_is_path_dir (path : option string) : call bool
| c_is_fd_dir (fd : Z) : call bool
| c_get_path (fd : Z) (max_size : N) : call (option string)
| c_cmp_canonical_path_prefix (prefix path : string) (upath_capacity : N)
    : call (option string)
| c_concat_str (str to_append connector : string) (str_capacity : N)
    : call string
| c_mkdir_as_needed (path : string) (m : N) : call Z
(* flux/core.h *)
| c_flux_open : call (option flux_t)
| c_flux_get_rank (hd : option flux_t) : call (option N)
| c_flux_barrier (hd : option flux_t) (name : string) (nprocs : Z)
    : call (option future)
| c_flux_future_get (f : option future) : call Z
| c_flux_future_destroy (f : option future) : call unit
| c_flux_future_wait_for (f : future) : call Z
| c_flux_kvs_lookup (hd : flux_t) (ns : option string) (topic : string)
    : call (option future)
| c_flux_kvs_lookup_get_unpack (f : future) : call (option Z)
| c_flux_rpc_pack (hd : flux_t) (topic : string) (nodeid : N) (upath : string)
    : call (option future)
| c_flux_rpc_get_raw (f : future) : call (option (list ascii * Z))
| c_flux_kvs_txn_create : call (option txn_t)
| c_flux_kvs_txn_pack (txn : txn_t) (key : string) (val : N) : call Z
| c_flux_kvs_commit (hd : flux_t) (ns : option string) (txn : txn_t)
    : call (option future)
| c_flux_kvs_txn_destroy (txn : txn_t) : call unit.

(** The world outside: whatever state it has, a call takes it to a new one
    and hands back its result. *)
Class Externals (W : Type) := ext : forall {R : Type}, call R -> W -> R * W.

(** The functions of [wrapper.c] whose entry is recorded. *)
Inductive marker :=
| enter_open_sync (path : string)
| enter_close_sync (path : string)
| enter_subscribe_via_flux (consumer_path user_path : string)
| enter_publish_via_flux (producer_path user_path : string).

Inductive event :=
| Ext {R : Type} (c : call R) (r : R)
| Mark (m : marker).

(** A trace entry: the event and the value of [ctx->reenter] at that time
    ([None] while [ctx] is null), which is what an interposed entry point
    called from inside the event would see. *)
Record entry := Entry { seen_reenter : option bool; what : event }.

Record state (W : Type) := State {
  world : W;
  ctx : option dyad_sync_ctx_t;
  trace : list entry
}.
Arguments State {W}.
Arguments world {W}.
Arguments ctx {W}.
Arguments trace {W}.

(** How a function can stop without returning. *)
Inductive fault := SIGFPE | SIGSEGV | Exited (code : Z).

Inductive result (W A : Type) :=
| Done (a : A) (s : state W)
| Stopped (f : fault) (s : state W).
Arguments Done {W A}.
Arguments Stopped {W A}.

Definition final {W A} (r : result W A) : state W :=
  match r with Done _ s => s | Stopped _ s => s end.

Definition M (W A : Type) : Type := state W -> result W A.

Definition ret {W A} (a : A) : M W A := fun s => Done a s.

Definition bind {W A B} (m : M W A) (k : A -> M W B) : M W B :=
  fun s => match m s with
           | Done a s' => k a s'
           | Stopped f s' => Stopped f s'
           end.

Declare Scope m_scope.
Delimit Scope m_scope with m.
Notation "x <- m ;; k" := (bind m (fun x => k))
  (at level 100, m at next level, right associativity) : m_scope.
Notation "m ;; k" := (bind m (fun _ => k))
  (at level 100, right associativity) : m_scope.
Local Open Scope m_scope.

Section Primitives.
Context {W : Type} {E : Externals W}.

Definition stop {A} (f : fault) : M W A := fun s => Stopped f s.

Definition record_event (e : event) (s : state W) : list entry :=
  trace s ++ [Entry (reenter <$> ctx s) e].

(** An external call: the world answers, the trace records it. *)
Definition perform {R} (c : call R) : M W R :=
  fun s => let '(r, w) := ext c (world s) in
           Done r (State w (ctx s) (record_event (Ext c r) s)).

Definition note (m : marker) : M W unit :=
  fun s => Done tt (State (world s) (ctx s) (record_event (Mark m) s)).

(** The pointer [ctx] itself. *)
Definition get_ctx : M W (option dyad_sync_ctx_t) := fun s => Done (ctx s) s.

(** [*ctx]: reading through a null [ctx] is a segmentation fault. *)
Definition deref_ctx : M W dyad_sync_ctx_t :=
  fun s => match ctx s with
           | Some c => Done c s
           | None => Stopped SIGSEGV s
           end.

(** [*ctx = c]. *)
Definition store_ctx (c : dyad_sync_ctx_t) : M W unit :=
  fun s => Done tt (State (world s) (Some c) (trace s)).

(** [ctx->field = v]. *)
Definition update_ctx (f : dyad_sync_ctx_t -> dyad_sync_ctx_t) : M W unit :=
  c <- deref_ctx ;; store_ctx (f c).
End Primitives.

Definition set_h v c := Ctx v (debug c) (check c) (reenter c) (initialized c)
  (shared_storage c) (sync_started c) (key_depth c) (key_bins c) (rank c)
  (kvs_namespace c).
Definition set_debug v c := Ctx (h c) v (check c) (reenter c) (initialized c)
  (shared_storage c) (sync_started c) (key_depth c) (key_bins c) (rank c)
  (kvs_namespace c).
Definition set_check v c := Ctx (h c) (debug c) v (reenter c) (initialized c)
  (shared_storage c) (sync_started c) (key_depth c) (key_bins c) (rank c)
  (kvs_namespace c).
Definition set_reenter v c := Ctx (h c) (debug c) (check c) v (initialized c)
  (shared_storage c) (sync_started c) (key_depth c) (key_bins c) (rank c)
  (kvs_namespace c).
Definition set_initialized v c := Ctx (h c) (debug c) (check c) (reenter c) v
  (shared_storage c) (sync_started c) (key_depth c) (key_bins c) (rank c)
  (kvs_namespace c).
Definition set_shared_storage v c := Ctx (h c) (debug c) (check c) (reenter c)
  (initialized c) v (sync_started c) (key_depth c) (key_bins c) (rank c)
  (kvs_namespace c).
Definition set_sync_started v c := Ctx (h c) (debug c) (check c) (reenter c)
  (initialized c) (shared_storage c) v (key_depth c) (key_bins c) (rank c)
  (kvs_namespace c).
Definition set_key_depth v c := Ctx (h c) (debug c) (check c) (reenter c)
  (initialized c) (shared_storage c) (sync_started c) v (key_bins c) (rank c)
  (kvs_namespace c).
Definition set_key_bins v c := Ctx (h c) (debug c) (check c) (reenter c)
  (initialized c) (shared_storage c) (sync_started c) (key_depth c) v (rank c)
  (kvs_namespace c).
Definition set_rank v c := Ctx (h c) (debug c) (check c) (reenter c)
  (initialized c) (shared_storage c) (sync_started c) (key_depth c)
  (key_bins c) v (kvs_namespace c).
Definition set_kvs_namespace v c := Ctx (h c) (debug c) (check c) (reenter c)
  (initialized c) (shared_storage c) (sync_started c) (key_depth c)
  (key_bins c) (rank c) v.

(** ** Small pieces of libc *)

(** [isspace] in the C locale. *)
Definition isspace (c : ascii) : bool :=
  let n := nat_of_ascii c in (n =? 32)%nat || ((9 <=? n)%nat && (n <=? 13)%nat).

Definition digit_of (c : ascii) : option Z :=
  let n := nat_of_ascii c in
  if (48 <=? n)%nat && (n <=? 57)%nat then Some (Z.of_nat n - 48)%Z else None.

Fixpoint skip_spaces (l : list ascii) : list ascii :=
  match l with
  | c :: r => if isspace c then skip_spaces r else l
  | [] => []
  end.

Fixpoint atoi_digits (acc : Z) (l : list ascii) : Z :=
  match l with
  | c :: r => match digit_of c with
              | Some d => atoi_digits (10 * acc + d)%Z r
              | None => acc
              end
  | [] => acc
  end.

(** [atoi], as glibc has it: [(int) strtol (s, NULL, 10)], where [strtol]
    saturates at the bounds of [long]. *)
Definition atoi (s : string) : Z :=
  let l := skip_spaces (c_str (list_ascii_of_string s)) in
  let v := match l with
           | "-"%char :: r => (- atoi_digits 0 r)%Z
           | "+"%char :: r => atoi_digits 0 r
           | _ => atoi_digits 0 l
           end in
  let v := Z.max (- 2 ^ 63) (Z.min (2 ^ 63 - 1) v) in
  ((v + 2 ^ 31) mod 2 ^ 32 - 2 ^ 31)%Z.

(** [strncpy (dst, src, n)] into a zeroed array longer than [n]. *)
Definition strncpy (src : string) (n : N) : string :=
  string_of_list_ascii (take (N.to_nat n) (c_str (list_ascii_of_string src))).

(** [strncmp (s, ".", strlen (".")) == 0]: the first character is a dot. *)
Definition starts_with_dot (s : string) : bool :=
  match s with
  | String c _ => Ascii.eqb c "."%char
  | EmptyString => false
  end.

(** [S_IRWXU | S_IRWXG | S_IROTH | S_IXOTH | S_ISGID]. *)
Definition dir_mode : N := 1533.

(** [if ((e = getenv (...))) field = atoi (e); else field = dflt;] for an
    unsigned field. *)
Definition if_set (e : option string) (dflt : N) : N :=
  if e is Some v then u32_of_int (atoi v) else dflt.

(** [(size_t) i] for an [int] [i]. *)
Definition size_t_of_int (i : Z) : N := Z.to_N (i mod 2 ^ 64)%Z.

(** ** The functions of [wrapper.c] *)

Section Wrapper.
Context {W : Type} {E : Externals W} {B : Build} {Hd : Headers} {H : Murmur3}.

(** [rc = fcntl (fd, F_GETFL)] and its three-way answer. *)
Definition is_wronly (fd : Z) : M W Z :=
  rc <- perform (c_fcntl_getfl fd) ;;
  if (rc =? -1)%Z then ret (-1)%Z
  else if (Z.land rc O_ACCMODE =? O_WRONLY)%Z then ret 1%Z
  else ret 0%Z.

(** A call of [gen_path_key] on a local array; its value and the array
    afterwards. *)
Definition call_gen_path_key (str : string) (path_key : list ascii)
    (len depth width : N) : M W (Z * list ascii) :=
  match gen_path_key str (Some path_key) len depth width with
  | Returned rc (Some b) => ret (rc, b)
  | Returned rc None => ret (rc, path_key)
  | DivByZero => stop SIGFPE
  end.

Definition open_real (path : string) (oflag : Z) (va_mode : Z) : M W Z :=
  ok <- perform (c_dlsym_next "open") ;;
  if negb ok then ret (-1)%Z else
  let mode := if (Z.land oflag O_CREAT =? 0)%Z then 0%Z else va_mode in
  perform (c_real_open path oflag mode).

Definition fopen_real (path : option string) (mode : string)
  : M W (option FILE) :=
  ok <- perform (c_dlsym_next "fopen") ;;
  if negb ok then ret None else perform (c_real_fopen path mode).

Definition close_real (fd : Z) : M W Z :=
  ok <- perform (c_dlsym_next "close") ;;
  if negb ok then ret (-1)%Z else perform (c_real_close fd).

Definition fclose_real (fp : option FILE) : M W Z :=
  ok <- perform (c_dlsym_next "fclose") ;;
  if negb ok then ret EOF else perform (c_real_fclose fp).

(** The [done:] label of [subscribe_via_flux]. *)
Definition subscribe_done (f1 f2 : option future) (rc : Z) : M W Z :=
  (if f1 is Some _ then perform (c_flux_future_destroy f1) else ret tt) ;;
  (if f2 is Some _ then perform (c_flux_future_destroy f2) else ret tt) ;;
  ret rc.

Definition subscribe_via_flux (consumer_path user_path : string) : M W Z :=
  note (enter_subscribe_via_flux consumer_path user_path) ;;
  c <- deref_ctx ;;
  k <- call_gen_path_key user_path (zeroed (N.to_nat PATH_MAX + 1)) PATH_MAX
         (key_depth c) (key_bins c) ;;
  let topic := string_of_list_ascii (c_str (snd k)) in
  match h c with
  | None => subscribe_done None None (-1)
  | Some hd =>
    f1 <- perform (c_flux_kvs_lookup hd (kvs_namespace c) topic) ;;
    match f1 with
    | None => subscribe_done None None (-1)
    | Some f =>
      r <- perform (c_flux_kvs_lookup_get_unpack f) ;;
      match r with
      | None => subscribe_done f1 None (-1)
      | Some owner =>
        let owner_rank := u32_of_int owner in
        perform (c_flux_future_destroy f1) ;;
        if shared_storage c || (owner_rank =? rank c)
        then subscribe_done None None 0 else
        f2 <- perform (c_flux_rpc_pack hd "dyad.fetch" owner_rank user_path) ;;
        match f2 with
        | None => subscribe_done None None (-1)
        | Some g =>
          d <- perform (c_flux_rpc_get_raw g) ;;
          match d with
          | None => subscribe_done None f2 (-1)
          | Some (file_data, file_len) =>
            let file_path := strncpy consumer_path (PATH_MAX - 1) in
            file_path <- perform (c_concat_str file_path user_path "/" PATH_MAX) ;;
            let file_path_copy := strncpy file_path PATH_MAX in
            odir <- perform (c_dirname file_path_copy) ;;
            made <- (if starts_with_dot odir then ret 0%Z
                     else perform (c_mkdir_as_needed odir dir_mode)) ;;
            if (made <? 0)%Z then subscribe_done None f2 (-1) else
            out <- fopen_real (Some file_path) "w" ;;
            match out with
            | None => subscribe_done None f2 (-1)
            | Some fp =>
              written <- perform (c_fwrite file_data 1 (size_t_of_int file_len) fp) ;;
              if negb (written =? size_t_of_int file_len)
              then subscribe_done None f2 (-1) else
              closed <- fclose_real out ;;
              let rc := if (closed =? 0)%Z then 0%Z else (-1)%Z in
              perform (c_flux_future_destroy f2) ;;
              subscribe_done None None rc
            end
          end
        end
      end
    end
  end.

Definition publish_via_flux (producer_path user_path : string) : M W Z :=
  note (enter_publish_via_flux producer_path user_path) ;;
  c <- deref_ctx ;;
  k <- call_gen_path_key user_path (zeroed (N.to_nat PATH_MAX + 1)) PATH_MAX
         (key_depth c) (key_bins c) ;;
  let topic := string_of_list_ascii (c_str (snd k)) in
  match h c with
  | None => ret (-1)%Z
  | Some hd =>
    txn <- perform c_flux_kvs_txn_create ;;
    match txn with
    | None => ret (-1)%Z
    | Some t =>
      packed <- perform (c_flux_kvs_txn_pack t topic (rank c)) ;;
      if (packed <? 0)%Z then ret (-1)%Z else
      f <- perform (c_flux_kvs_commit hd (kvs_namespace c) t) ;;
      match f with
      | None => ret (-1)%Z
      | Some g =>
        perform (c_flux_future_wait_for g) ;;
        perform (c_flux_future_destroy f) ;;
        perform (c_flux_kvs_txn_destroy t) ;;
        ret 0%Z
      end
    end
  end.

Definition dyad_open_sync (path dyad_path user_path : string) : M W Z :=
  update_ctx (set_reenter false) ;;
  rc <- subscribe_via_flux dyad_path user_path ;;
  update_ctx (set_reenter true) ;;
  ret rc.

Definition dyad_close_sync (path dyad_path user_path : string) : M W Z :=
  update_ctx (set_reenter false) ;;
  rc <- publish_via_flux dyad_path user_path ;;
  update_ctx (set_reenter true) ;;
  ret rc.

(** The [done:] label of [open_sync] and of [close_sync]. *)
Definition sync_done (rc : Z) : M W Z :=
  oc <- get_ctx ;;
  (if (rc =? 0)%Z && (if oc is Some c then check c else false)
   then perform (c_setenv DYAD_CHECK_ENV "ok" 1) ;; ret tt
   else ret tt) ;;
  ret rc.

Definition open_sync (path : string) : M W Z :=
  note (enter_open_sync path) ;;
  dyad_path <- perform (c_getenv DYAD_PATH_CONS_ENV) ;;
  match dyad_path with
  | None => sync_done 0
  | Some dyad_path =>
    upath <- perform (c_cmp_canonical_path_prefix dyad_path path PATH_MAX) ;;
    match upath with
    | Some upath => rc <- dyad_open_sync path dyad_path upath ;; sync_done rc
    | None => sync_done 0
    end
  end.

Definition close_sync (path : string) : M W Z :=
  note (enter_close_sync path) ;;
  dyad_path <- perform (c_getenv DYAD_PATH_PROD_ENV) ;;
  match dyad_path with
  | None => sync_done 0
  | Some dyad_path =>
    upath <- perform (c_cmp_canonical_path_prefix dyad_path path PATH_MAX) ;;
    match upath with
    | Some upath => rc <- dyad_close_sync path dyad_path upath ;; sync_done rc
    | None => sync_done 0
    end
  end.
End Wrapper.

Section Hooks.
Context {W : Type} {E : Externals W} {B : Build} {Hd : Headers} {H : Murmur3}.

(** [ctx && ctx->h] and [ctx && !ctx->reenter]. *)
Definition ctx_and_h (oc : option dyad_sync_ctx_t) : bool :=
  if oc is Some c then bool_decide (is_Some (h c)) else false.
Definition ctx_and_not_reenter (oc : option dyad_sync_ctx_t) : bool :=
  if oc is Some c then negb (reenter c) else false.

Definition dyad_sync_init : M W unit :=
  oc <- get_ctx ;;
  match oc with
  | Some c =>
      if initialized c then ret tt else store_ctx dyad_sync_ctx_t_default
  | None =>
    ok <- perform c_malloc_ctx ;;
    if negb ok then perform (c_exit 1) ;; stop (Exited 1) else
    store_ctx dyad_sync_ctx_t_default ;;
    e <- perform (c_getenv "DYAD_SYNC_DEBUG") ;;
    (if e is Some _
     then update_ctx (set_debug true) ;; perform c_enable_debug_dyad_utils
     else update_ctx (set_debug false) ;; perform c_disable_debug_dyad_utils) ;;
    e <- perform (c_getenv "DYAD_SYNC_CHECK") ;;
    update_ctx (set_check (bool_decide (is_Some e))) ;;
    e <- perform (c_getenv "DYAD_SHARED_STORAGE") ;;
    update_ctx (set_shared_storage (bool_decide (is_Some e))) ;;
    e <- perform (c_getenv "DYAD_KEY_DEPTH") ;;
    update_ctx (set_key_depth (if_set e 3)) ;;
    e <- perform (c_getenv "DYAD_KEY_BINS") ;;
    update_ctx (set_key_bins (if_set e 1024)) ;;
    update_ctx (set_reenter true) ;;
    e <- perform (c_getenv "DYAD_KVS_NAMESPACE") ;;
    update_ctx (set_kvs_namespace e) ;;
    hd <- perform c_flux_open ;;
    update_ctx (set_h hd) ;;
    r <- perform (c_flux_get_rank hd) ;;
    (if r is Some rk then update_ctx (set_rank rk) else ret tt) ;;
    update_ctx (set_initialized true) ;;
    if DYAD_SYNC_START then
      update_ctx (set_sync_started false) ;;
      e <- perform (c_getenv "DYAD_SYNC_START") ;;
      match e with
      | Some v =>
          if (0 <? atoi v)%Z then
            fb <- perform (c_flux_barrier hd "sync_start" (atoi v)) ;;
            perform (c_flux_future_get fb) ;;
            perform (c_flux_future_destroy fb) ;;
            update_ctx (set_sync_started true) ;;
            perform c_print_timestamp
          else ret tt
      | None => ret tt
      end
    else ret tt
  end.

Definition open (path : string) (oflag : Z) (va_mode : Z) : M W Z :=
  let mode := if (Z.land oflag O_CREAT =? 0)%Z then 0%Z else va_mode in
  ok <- perform (c_dlsym_next "open") ;;
  if negb ok then ret (-1)%Z else
  to_real <- (if negb (mode =? O_RDONLY)%Z then ret true
              else perform (c_is_path_dir (Some path))) ;;
  (if to_real then ret tt else
   oc <- get_ctx ;;
   if negb (ctx_and_h oc) || ctx_and_not_reenter oc then ret tt
   else open_sync path ;; ret tt) ;;
  perform (c_real_open path oflag mode).

Definition fopen (path : option string) (mode : string) : M W (option FILE) :=
  ok <- perform (c_dlsym_next "fopen") ;;
  if negb ok then ret None else
  to_real <- (if negb (String.eqb mode "r") then ret true
              else perform (c_is_path_dir path)) ;;
  (if to_real then ret tt else
   oc <- get_ctx ;;
   match path with
   | Some p =>
       if negb (ctx_and_h oc) || ctx_and_not_reenter oc then ret tt
       else open_sync p ;; ret tt
   | None => ret tt
   end) ;;
  perform (c_real_fopen path mode).

Definition sync_directory (path : string) : M W Z :=
  let path_copy := strncpy path PATH_MAX in
  odir <- perform (c_dirname path_copy) ;;
  c <- deref_ctx ;;
  let reenter_backup := reenter c in
  update_ctx (set_reenter false) ;;
  odir_fd <- open_real odir O_RDONLY 0 ;;
  rc <- (if (odir_fd <? 0)%Z then ret (-1)%Z else
         synced <- perform (c_fsync odir_fd) ;;
         closed <- close_real odir_fd ;;
         ret (if (closed <? 0)%Z || (synced <? 0)%Z then (-1)%Z else 0%Z)) ;;
  update_ctx (set_reenter reenter_backup) ;;
  ret rc.

(** In [close] and [fclose] the test in front of the coordination is
    [(fd < 0) || (ctx == NULL) || (ctx->h == NULL) || !ctx->reenter]; its
    last three disjuncts are [!(ctx && ctx->h) || (ctx && !ctx->reenter)],
    written with the two tests of [open] and [fopen].  What is computed in
    front of [real_call:] is the pair of [to_sync] and [path]. *)
Definition close (fd : Z) : M W Z :=
  ok <- perform (c_dlsym_next "close") ;;
  if negb ok then ret (-1)%Z else
  oc <- get_ctx ;;
  ts <- (if (fd <? 0)%Z || negb (ctx_and_h oc) || ctx_and_not_reenter oc
         then ret (false, ""%string)
         else dir <- perform (c_is_fd_dir fd) ;;
              if dir then ret (false, ""%string) else
              p <- perform (c_get_path fd (PATH_MAX - 1)) ;;
              match p with
              | None => ret (false, ""%string)
              | Some path => ret (true, path)
              end) ;;
  let '(to_sync, path) := ts in
  perform (c_fsync fd) ;;
  (if DYAD_SYNC_DIR && to_sync then sync_directory path ;; ret tt else ret tt) ;;
  wronly <- is_wronly fd ;;
  if to_sync && (wronly =? 1)%Z then
    rc <- perform (c_real_close fd) ;;
    close_sync path ;;
    ret rc
  else perform (c_real_close fd).

Definition fclose (fp : option FILE) : M W Z :=
  ok <- perform (c_dlsym_next "fclose") ;;
  if negb ok then ret EOF else
  oc <- get_ctx ;;
  ts <- (if bool_decide (fp = None) || negb (ctx_and_h oc) || ctx_and_not_reenter oc
         then ret (false, ""%string)
         else fd <- perform (c_fileno fp) ;;
              dir <- perform (c_is_fd_dir fd) ;;
              if dir then ret (false, ""%string) else
              fd <- perform (c_fileno fp) ;;
              p <- perform (c_get_path fd (PATH_MAX - 1)) ;;
              match p with
              | None => ret (false, ""%string)
              | Some path => ret (true, path)
              end) ;;
  let '(to_sync, path) := ts in
  perform (c_fflush fp) ;;
  fd <- perform (c_fileno fp) ;;
  perform (c_fsync fd) ;;
  (if DYAD_SYNC_DIR && to_sync then sync_directory path ;; ret tt else ret tt) ;;
  wronly <- is_wronly fd ;;
  if to_sync && (wronly =? 1)%Z then
    rc <- perform (c_real_fclose fp) ;;
    close_sync path ;;
    ret rc
  else perform (c_real_fclose fp).
End Hooks.

(** ** A scripted world, for running the model on concrete inputs *)

Module Script.

(** What the scripted environment answers: the environment variables, the
    rank flux reports, whether [flux_open] succeeds, the owner stored in
    the KVS, the bytes the owner sends, the flags [fcntl] reports, and the
    user path a managed path has (if it is managed at all). *)
Record script := {
  env : list (string * string);
  my_rank : N;
  flux_up : bool;
  owner : Z;
  payload : list ascii;
  fd_flags : Z;
  managed : option string
}.

Fixpoint lookup_env (name : string) (l : list (string * string))
  : option string :=
  match l with
  | [] => None
  | (k, v) :: r => if String.eqb k name then Some v else lookup_env name r
  end.

Definition with_env (e : list (string * string)) (w : script) : script :=
  {| env := e; my_rank := my_rank w; flux_up := flux_up w; owner := owner w;
     payload := payload w; fd_flags := fd_flags w; managed := managed w |}.

Definition answer {R : Type} (c : call R) : script -> R * script :=
  match c in call R return script -> R * script with
  | c_getenv name => fun w => (lookup_env name (env w), w)
  | c_setenv name value _ => fun w => (0%Z, with_env ((name, value) :: env w) w)
  | c_malloc_ctx => fun w => (true, w)
  | c_exit _ => fun w => (tt, w)
  | c_dlsym_next _ => fun w => (true, w)
  | c_real_open _ _ _ => fun w => (3%Z, w)
  | c_real_fopen _ _ => fun w => (Some 7, w)
  | c_real_close _ => fun w => (0%Z, w)
  | c_real_fclose _ => fun w => (0%Z, w)
  | c_fsync _ => fun w => (0%Z, w)
  | c_fflush _ => fun w => (0%Z, w)
  | c_fileno _ => fun w => (5%Z, w)
  | c_fcntl_getfl _ => fun w => (fd_flags w, w)
  | c_fwrite _ _ nmemb _ => fun w => (nmemb, w)
  | c_dirname _ => fun w => ("/managed"%string, w)
  | c_print_timestamp => fun w => (tt, w)
  | c_enable_debug_dyad_utils => fun w => (tt, w)
  | c_disable_debug_dyad_utils => fun w => (tt, w)
  | c_is_path_dir _ => fun w => (false, w)
  | c_is_fd_dir _ => fun w => (false, w)
  | c_get_path _ _ => fun w => (Some "/managed/out.dat"%string, w)
  | c_cmp_canonical_path_prefix _ _ _ => fun w => (managed w, w)
  | c_concat_str s a conn _ => fun w => ((s ++ conn ++ a)%string, w)
  | c_mkdir_as_needed _ _ => fun w => (0%Z, w)
  | c_flux_open => fun w => (if flux_up w then Some 1 else None, w)
  | c_flux_get_rank hd => fun w => (if hd is Some _ then Some (my_rank w) else None, w)
  | c_flux_barrier _ _ _ => fun w => (Some 9, w)
  | c_flux_future_get _ => fun w => (0%Z, w)
  | c_flux_future_destroy _ => fun w => (tt, w)
  | c_flux_future_wait_for _ => fun w => (0%Z, w)
  | c_flux_kvs_lookup _ _ _ => fun w => (Some 2, w)
  | c_flux_kvs_lookup_get_unpack _ => fun w => (Some (owner w), w)
  | c_flux_rpc_pack _ _ _ _ => fun w => (Some 4, w)
  | c_flux_rpc_get_raw _ =>
      fun w => (Some (payload w, Z.of_nat (length (payload w))), w)
  | c_flux_kvs_txn_create => fun w => (Some 6, w)
  | c_flux_kvs_txn_pack _ _ _ => fun w => (0%Z, w)
  | c_flux_kvs_commit _ _ _ => fun w => (Some 8, w)
  | c_flux_kvs_txn_destroy _ => fun w => (tt, w)
  end.

Definition externals : Externals script := @answer.

(** The build as the file is written: no switch defined. *)
Definition plain_build : Build :=
  {| DYAD_SYNC_DIR := false; DYAD_SYNC_START := false |}.

Definition sync_dir_build : Build :=
  {| DYAD_SYNC_DIR := true; DYAD_SYNC_START := true |}.

(** Modelled from the spec: [dyad_sync_ctx_t_default] of [dyad_ctx.h] and
    the macros [DYAD_PATH_CONS_ENV], [DYAD_PATH_PROD_ENV] and
    [DYAD_CHECK_ENV] of [dyad.h], which are not part of the sources at
    hand.  The spec gives the defaults of [key_depth] (3) and [key_bins]
    (1024) and the names [DYAD_PATH_CONS], [DYAD_PATH_PROD] and
    [DYAD_CHECK_ENV]; every other field starts cleared. *)
Definition headers : Headers :=
  {| dyad_sync_ctx_t_default :=
       {| h := None; debug := false; check := false; reenter := false;
          initialized := false; shared_storage := false;
          sync_started := false; key_depth := 3; key_bins := 1024;
          rank := 0; kvs_namespace := None |};
     DYAD_PATH_CONS_ENV := "DYAD_PATH_CONS";
     DYAD_PATH_PROD_ENV := "DYAD_PATH_PROD";
     DYAD_CHECK_ENV := "DYAD_CHECK_ENV" |}.

(** A consumer on rank 1 whose managed directory holds the path asked
    for, with the file owned by rank 0. *)
Definition consumer : script :=
  {| env := [("DYAD_PATH_CONS", "/managed")]%string; my_rank := 1;
     flux_up := true; owner := 0; payload := list_ascii_of_string "hello";
     fd_flags := O_RDONLY; managed := Some "out.dat"%string |}.

(** A producer on rank 0 closing a file it wrote in its managed
    directory. *)
Definition producer : script :=
  {| env := [("DYAD_PATH_PROD", "/managed")]%string; my_rank := 0;
     flux_up := true; owner := 0; payload := [];
     fd_flags := O_WRONLY; managed := Some "out.dat"%string |}.

(** The consumer when flux cannot be reached. *)
Definition no_flux : script :=
  {| env := [("DYAD_PATH_CONS", "/managed")]%string; my_rank := 1;
     flux_up := false; owner := 0; payload := [];
     fd_flags := O_RDONLY; managed := Some "out.dat"%string |}.

(** The consumer started with [DYAD_KEY_BINS=0]. *)
Definition zero_bins : script :=
  {| env := [("DYAD_PATH_CONS", "/managed"); ("DYAD_KEY_BINS", "0")]%string;
     my_rank := 1; flux_up := true; owner := 0;
     payload := list_ascii_of_string "hello";
     fd_flags := O_RDONLY; managed := Some "out.dat"%string |}.

(** A context as [dyad_sync_init] leaves it on rank [r] with flux up. *)
Definition ready_ctx (r : N) : dyad_sync_ctx_t :=
  {| h := Some 1; debug := false; check := false; reenter := true;
     initialized := true; shared_storage := false; sync_started := false;
     key_depth := 3; key_bins := 1024; rank := r; kvs_namespace := None |}.

Definition start (w : script) (c : option dyad_sync_ctx_t) : state script :=
  State w c [].

(** The calls of a trace, without their answers. *)
Definition events (s : state script) : list event := what <$> trace s.

End Script.

(** ** Reading traces *)

(** The C name of the function a call goes to. *)
Definition call_name {R : Type} (c : call R) : string :=
  match c with
  | c_getenv _ => "getenv" | c_setenv _ _ _ => "setenv"
  | c_malloc_ctx => "malloc" | c_exit _ => "exit"
  | c_dlsym_next _ => "dlsym"
  | c_real_open _ _ _ => "open" | c_real_fopen _ _ => "fopen"
  | c_real_close _ => "close" | c_real_fclose _ => "fclose"
  | c_fsync _ => "fsync" | c_fflush _ => "fflush" | c_fileno _ => "fileno"
  | c_fcntl_getfl _ => "fcntl" | c_fwrite _ _ _ _ => "fwrite"
  | c_dirname _ => "dirname" | c_print_timestamp => "printf"
  | c_enable_debug_dyad_utils => "enable_debug_dyad_utils"
  | c_disable_debug_dyad_utils => "disable_debug_dyad_utils"
  | c_is_path_dir _ => "is_path_dir" | c_is_fd_dir _ => "is_fd_dir"
  | c_get_path _ _ => "get_path"
  | c_cmp_canonical_path_prefix _ _ _ => "cmp_canonical_path_prefix"
  | c_concat_str _ _ _ _ => "concat_str"
  | c_mkdir_as_needed _ _ => "mkdir_as_needed"
  | c_flux_open => "flux_open" | c_flux_get_rank _ => "flux_get_rank"
  | c_flux_barrier _ _ _ => "flux_barrier"
  | c_flux_future_get _ => "flux_future_get"
  | c_flux_future_destroy _ => "flux_future_destroy"
  | c_flux_future_wait_for _ => "flux_future_wait_for"
  | c_flux_kvs_lookup _ _ _ => "flux_kvs_lookup"
  | c_flux_kvs_lookup_get_unpack _ => "flux_kvs_lookup_get_unpack"
  | c_flux_rpc_pack _ _ _ _ => "flux_rpc_pack"
  | c_flux_rpc_get_raw _ => "flux_rpc_get_raw"
  | c_flux_kvs_txn_create => "flux_kvs_txn_create"
  | c_flux_kvs_txn_pack _ _ _ => "flux_kvs_txn_pack"
  | c_flux_kvs_commit _ _ _ => "flux_kvs_commit"
  | c_flux_kvs_txn_destroy _ => "flux_kvs_txn_destroy"
  end%string.

(** The entry is a call of the external function [name]. *)
Definition calls (name : string) (e : entry) : bool :=
  match what e with
  | Ext c _ => String.eqb (call_name c) name
  | Mark _ => false
  end.

(** How often a trace calls the external function [name]. *)
Definition invocations (name : string) (t : list entry) : nat :=
  length (filter (fun e => calls name e = true) t).

(** The entry records that a function of the coordination was entered. *)
Definition enters_subscribe (e : entry) : bool :=
  match what e with Mark (enter_subscribe_via_flux _ _) => true | _ => false end.
Definition enters_publish (e : entry) : bool :=
  match what e with Mark (enter_publish_via_flux _ _) => true | _ => false end.
Definition enters_sync (e : entry) : bool :=
  match what e with
  | Mark (enter_open_sync _) | Mark (enter_close_sync _) => true
  | _ => false
  end.

(** The owner an entry reports, if it is a successful
    [flux_kvs_lookup_get_unpack]. *)
Definition observed_owner (e : entry) : option Z :=
  match what e with
  | Ext c r =>
      match c in call R return R -> option Z with
      | c_flux_kvs_lookup_get_unpack _ => fun r => r
      | _ => fun _ => None
      end r
  | Mark _ => None
  end.

(** The first owner a trace reports. *)
Fixpoint lookup_owner (t : list entry) : option Z :=
  match t with
  | [] => None
  | e :: r => if observed_owner e is Some o then Some o else lookup_owner r
  end.

(** The rank an entry sends a [dyad.fetch] request to. *)
Definition fetch_target (e : entry) : option N :=
  match what e with
  | Ext (c_flux_rpc_pack _ _ nodeid _) _ => Some nodeid
  | _ => None
  end.

(** Entries calling a function on a given argument. *)
Definition fsyncs (fd : Z) (e : entry) : bool :=
  match what e with Ext (c_fsync fd') _ => (fd' =? fd)%Z | _ => false end.
Definition real_closes (fd : Z) (e : entry) : bool :=
  match what e with Ext (c_real_close fd') _ => (fd' =? fd)%Z | _ => false end.
Definition real_fcloses (fp : option FILE) (e : entry) : bool :=
  match what e with
  | Ext (c_real_fclose fp') _ => bool_decide (fp' = fp)
  | _ => false
  end.
Definition fflushes (fp : option FILE) (e : entry) : bool :=
  match what e with
  | Ext (c_fflush fp') _ => bool_decide (fp' = fp)
  | _ => false
  end.
Definition fopens_for_writing (e : entry) : bool :=
  match what e with
  | Ext (c_real_fopen _ mode) _ => String.eqb mode "w"
  | _ => false
  end.

(** [fd = fileno (fp); fsync (fd);]: the descriptor of the stream [fp] is
    asked for and synced, in two adjacent entries. *)
Definition fsyncs_stream (fp : option FILE) (t : list entry) : bool :=
  match t with
  | e1 :: e2 :: _ =>
      match what e1 with
      | Ext c r =>
          match c in call R return R -> bool with
          | c_fileno fp' => fun fd => bool_decide (fp' = fp) && fsyncs fd e2
          | _ => fun _ => false
          end r
      | Mark _ => false
      end
  | _ => false
  end.

(** A pattern on the first entry of a trace. *)
Definition first_is (p : entry -> bool) (t : list entry) : bool :=
  match t with e :: _ => p e | [] => false end.

(** In [t], whenever an entry satisfies [q], the pattern [P] matches at
    some point in front of it. *)
Definition happens_before (P : list entry -> bool) (q : entry -> bool)
    (t : list entry) : Prop :=
  forall pre e post, t = pre ++ e :: post -> q e = true ->
    exists a b, pre = a ++ b /\ P b = true.

(** The same as a computation, scanning [t] behind what was seen. *)
Fixpoint occurs (P : list entry -> bool) (l : list entry) : bool :=
  P l || match l with [] => false | _ :: r => occurs P r end.

Fixpoint happens_before_scan (P : list entry -> bool) (q : entry -> bool)
    (seen t : list entry) : bool :=
  match t with
  | [] => true
  | e :: r => (negb (q e) || occurs P seen)
              && happens_before_scan P q (seen ++ [e]) r
  end.

(** The entries a run added to the trace it started from. *)
Definition added {W A} (s : state W) (r : result W A) : list entry :=
  drop (length (trace s)) (trace (final r)).

Definition returned {W A} (r : result W A) : option A :=
  match r with Done a _ => Some a | Stopped _ _ => None end.

(** ** Vocabulary of the statements about [gen_path_key] *)

Definition no_nul (l : list ascii) : Prop := Forall (fun c => c <> NUL) l.

(** The text of a whole key, as the function formats it. *)
Definition key_text {H : Murmur3} (p : string) (depth width : N) : list ascii :=
  let str := c_str (list_ascii_of_string p) in
  loop_text str width (N.to_nat depth) 0 57 ++ str.

(** The texts of the successive [snprintf] calls of [gen_path_key]: one per
    level, then the path. *)
Definition snprintf_texts {H : Murmur3} (p : string) (depth width : N)
  : list (list ascii) :=
  let str := c_str (list_ascii_of_string p) in
  map (fun i => level str width (code_seed i)) (seq 0 (N.to_nat depth))
  ++ [str].

(** The [k]-th [snprintf] is reached with [cx] characters written, [cx]
    below [len], and its text and terminator do not fit in the [len - cx]
    bytes left. *)
Definition overflows (texts : list (list ascii)) (len k : nat) : Prop :=
  exists t, texts !! k = Some t /\
    let cx := length (concat (take k texts)) in
    (cx < len)%nat /\ (len - cx <= length t)%nat.


(** ** Vocabulary of the statements about traces *)

Definition reports_owner (e : entry) : bool :=
  if observed_owner e is Some _ then true else false.

(** The ranks a trace sends [dyad.fetch] requests to, in order. *)
Definition fetch_targets (t : list entry) : list N := omap fetch_target t.


(** The next-symbol resolution of [name] succeeds in the state [s]. *)
Definition resolves {W} {E : Externals W} (name : string) (s : state W) : Prop :=
  fst (ext (c_dlsym_next name) (world s)) = true.

(** What [flux_open] and [flux_get_rank] answered in a trace. *)
Definition flux_open_answer (e : entry) : option (option flux_t) :=
  match what e with
  | Ext c r =>
      match c in call R return R -> option (option flux_t) with
      | c_flux_open => fun r => Some r
      | _ => fun _ => None
      end r
  | Mark _ => None
  end.

Definition flux_get_rank_answer (e : entry) : option (option N) :=
  match what e with
  | Ext c r =>
      match c in call R return R -> option (option N) with
      | c_flux_get_rank _ => fun r => Some r
      | _ => fun _ => None
      end r
  | Mark _ => None
  end.

(** What [getenv (name)] answered to an entry. *)
Definition getenv_answer (name : string) (e : entry) : option (option string) :=
  match what e with
  | Ext c r =>
      match c in call R return R -> option (option string) with
      | c_getenv n => fun r => if String.eqb n name then Some r else None
      | _ => fun _ => None
      end r
  | Mark _ => None
  end.

(** The first answer of a kind in a trace. *)
Definition first_answer {A} (f : entry -> option A) (t : list entry) : option A :=
  head (omap f t).

(** Every call of [fopen] in the trace opens for writing. *)
Definition fopen_only_for_writing (t : list entry) : bool :=
  forallb (fun e => negb (calls "fopen" e) || fopens_for_writing e) t.


(** Why a function of the coordination can stop instead of returning: the
    key generation divided by a zero [key_bins], or there was no context to
    read. *)
Definition stop_reason (f : fault) (oc : option dyad_sync_ctx_t) : Prop :=
  match oc with
  | Some c => f = SIGFPE /\ key_bins c = 0 /\ key_depth c <> 0
  | None => f = SIGSEGV
  end.

Definition stops_for_a_reason {W A} (s : state W) (r : result W A) : Prop :=
  match r with
  | Done _ _ => True
  | Stopped f _ => stop_reason f (ctx s)
  end.

(** An interposed entry point stops instead of returning only when the key
    generation of the coordination divides by a zero [key_bins]. *)
Definition hook_stops {W A} (s : state W) (r : result W A) : Prop :=
  match r with
  | Done _ _ => True
  | Stopped f _ =>
      f = SIGFPE /\
      exists c, ctx s = Some c /\ key_bins c = 0 /\ key_depth c <> 0
  end.

(** The value of [mode] in [open]: the variadic argument when [oflag] has
    [O_CREAT], and 0 otherwise. *)
Definition open_mode (oflag va_mode : Z) : Z :=
  if (Z.land oflag O_CREAT =? 0)%Z then 0%Z else va_mode.

(** A pattern that still matches when the trace goes on. *)
Definition stable (P : list entry -> bool) : Prop :=
  forall a b, P a = true -> P (a ++ b) = true.

(** The entry belongs to a publish: [publish_via_flux] is entered, or the
    ownership record is packed or committed. *)
Definition publishes (e : entry) : bool :=
  enters_publish e || calls "flux_kvs_txn_pack" e || calls "flux_kvs_commit" e.

(** What the first [getenv (name)] of a trace answered. *)
Definition env_seen (name : string) (t : list entry) : option string :=
  default None (first_answer (getenv_answer name) t).

(** The rank a context has after an initialisation with trace [t]: the
    one [flux_get_rank] reported if it succeeded, and [dflt] otherwise. *)
Definition reported_rank (t : list entry) (dflt : N) : N :=
  match first_answer flux_get_rank_answer t with
  | Some (Some rk) => rk
  | _ => dflt
  end.

(** The entry is a call an entry point makes when it only passes its
    call on: the symbol resolution, the directory test, the flushes, and the
    real function itself. *)
Definition plain_io (e : entry) : bool :=
  match what e with
  | Ext c _ =>
      existsb (String.eqb (call_name c))
        ["dlsym"; "is_path_dir"; "open"; "fopen"; "close"; "fclose";
         "fsync"; "fflush"; "fileno"; "fcntl"]%string
  | Mark _ => false
  end.

(** * Properties *)

(** ** C strings *)

Lemma c_str_no_nul l : no_nul (c_str l).
Proof.
  induction l as [|c r IH]; simpl; [constructor|].
  destruct (Ascii.eqb_spec c NUL); [constructor|].
  constructor; assumption.
Qed.

Lemma c_str_holds_nul X r : no_nul X -> c_str (X ++ NUL :: r) = X.
Proof.
  induction 1 as [|c X Hc _ IH]; simpl; [reflexivity|].
  destruct (Ascii.eqb_spec c NUL); [contradiction|]. by rewrite IH.
Qed.

Lemma c_str_id X : no_nul X -> c_str X = X.
Proof.
  induction 1 as [|c X Hc _ IH]; simpl; [reflexivity|].
  destruct (Ascii.eqb_spec c NUL); [contradiction|]. by rewrite IH.
Qed.

Lemma no_nul_app X Y : no_nul X -> no_nul Y -> no_nul (X ++ Y).
Proof. apply Forall_app_2. Qed.


Lemma hex_digit_no_nul v : hex_digit v <> NUL.
Proof.
  unfold hex_digit.
  destruct (nth_in_or_default (N.to_nat v)
              (list_ascii_of_string "0123456789abcdef") "f"%char) as [Hin | ->];
    [|discriminate].
  revert Hin. generalize (nth (N.to_nat v)
    (list_ascii_of_string "0123456789abcdef") "f"%char). intros a Hin.
  simpl in Hin. intuition (subst; discriminate).
Qed.

Lemma hex_rev_no_nul fuel v : no_nul (hex_rev fuel v).
Proof.
  revert v. induction fuel as [|f IH]; intros v; simpl; [constructor|].
  constructor; [apply hex_digit_no_nul|].
  destruct (v / 16 =? 0); [constructor|apply IH].
Qed.

Lemma fmt_x_no_nul v : no_nul (fmt_x v).
Proof. unfold fmt_x, no_nul. apply Forall_rev, hex_rev_no_nul. Qed.

Lemma level_no_nul {H : Murmur3} str width seed : no_nul (level str width seed).
Proof.
  unfold level. apply no_nul_app; [apply fmt_x_no_nul|].
  constructor; [discriminate|constructor].
Qed.

Lemma loop_text_no_nul {H : Murmur3} str width iters d seed :
  no_nul (loop_text str width iters d seed).
Proof.
  revert d seed. induction iters as [|k IH]; intros d seed; simpl;
    [constructor|].
  apply no_nul_app; [apply level_no_nul|apply IH].
Qed.

(** ** Buffers *)

Lemma holds_length buf X :
  (length X < length buf)%nat -> length (holds buf X) = length buf.
Proof.
  intros Hlt. unfold holds. rewrite length_app. simpl. rewrite length_drop. lia.
Qed.

Lemma c_str_holds buf X : no_nul X -> c_str (holds buf X) = X.
Proof. apply c_str_holds_nul. Qed.

Lemma holds_nil buf : (0 < length buf)%nat -> <[0%nat := NUL]> buf = holds buf [].
Proof. destruct buf as [|b r]; simpl; [lia|]. reflexivity. Qed.

Lemma list_inserts_0_fits (K R : list ascii) :
  (length K <= length R)%nat -> list_inserts 0 K R = K ++ drop (length K) R.
Proof.
  intros Hle. rewrite <- (take_drop (length K) R) at 1.
  apply list_inserts_0_r. rewrite length_take. lia.
Qed.

(** [snprintf] at the end of the string a buffer holds extends that string,
    cut to what the buffer can take. *)
Lemma snprintf_holds buf X len s :
  (length X < N.to_nat len <= length buf)%nat ->
  snprintf (holds buf X) (N.of_nat (length X)) (len - N.of_nat (length X)) s
  = (holds buf (take (N.to_nat len - 1) (X ++ s)), Z.of_nat (length s)).
Proof.
  intros [Hlt Hcap]. unfold snprintf.
  destruct (N.eqb_spec (len - N.of_nat (length X)) 0) as [Hz|_]; [lia|].
  f_equal. rewrite Nat2N.id.
  replace (N.to_nat (len - N.of_nat (length X) - 1))
    with (N.to_nat len - 1 - length X)%nat by lia.
  set (k := take (N.to_nat len - 1 - length X) s).
  assert (Hk : (length k <= N.to_nat len - 1 - length X)%nat).
  { subst k. rewrite length_take. lia. }
  rewrite take_app, (take_ge X) by lia. fold k.
  unfold holds at 1.
  replace (length X) with (length X + 0)%nat at 1 by lia.
  rewrite list_inserts_app_r, list_inserts_0_fits.
  2:{ rewrite length_app. simpl. rewrite length_drop. lia. }
  unfold holds. rewrite <- !app_assoc. do 2 f_equal.
  rewrite length_app. simpl.
  replace (length k + 1)%nat with (S (length k)) by lia. simpl.
  rewrite drop_drop. do 2 f_equal. rewrite length_app. lia.
Qed.

(** ** The loop and the whole function *)

Section GenPathKeyFacts.
Context {H : Murmur3}.

Lemma level_length str width seed : (2 <= length (level str width seed))%nat.
Proof.
  unfold level, fmt_x. rewrite length_app, length_rev.
  change 8%nat with (S 7). cbn [hex_rev length]. lia.
Qed.

Lemma gen_path_key_loop_step str len width k d seed cx path_key :
  gen_path_key_loop str len width (S k) d seed cx path_key
  = let seed' := u32 (seed + nth (N.to_nat (d mod 10)) seeds 0) in
    if width =? 0 then inl DivByZero else
    let pn := snprintf path_key cx (len - cx) (level str width seed') in
    if (len <=? Z.to_N (Z.of_N cx + snd pn)) || (snd pn <? 0)%Z
    then inl (Returned (-1) (Some (fst pn)))
    else gen_path_key_loop str len width k (d + 1) seed'
           (Z.to_N (Z.of_N cx + snd pn)) (fst pn).
Proof. reflexivity. Qed.

Lemma loop_text_step str width k d seed :
  loop_text str width (S k) d seed
  = level str width (u32 (seed + nth (N.to_nat (d mod 10)) seeds 0))
    ++ loop_text str width k (d + 1)
         (u32 (seed + nth (N.to_nat (d mod 10)) seeds 0)).
Proof. reflexivity. Qed.

(** From a buffer that holds [X], the loop leaves the buffer holding [X]
    followed by the levels, or as much of that as fits when it gives up. *)
Lemma gen_path_key_loop_holds str len width iters :
  forall d seed X buf,
    width <> 0 ->
    (length X < N.to_nat len <= length buf)%nat ->
    gen_path_key_loop str len width iters d seed
      (N.of_nat (length X)) (holds buf X)
    = let T := X ++ loop_text str width iters d seed in
      if (length T <? N.to_nat len)%nat
      then inr (N.of_nat (length T), holds buf T)
      else inl (Returned (-1)
                  (Some (holds buf (take (N.to_nat len - 1) T)))).
Proof.
  induction iters as [|k IH]; intros d seed X buf Hw Hb.
  - cbn [gen_path_key_loop loop_text]. cbv zeta. rewrite app_nil_r.
    destruct (Nat.ltb_spec (length X) (N.to_nat len)); [reflexivity|lia].
  - rewrite gen_path_key_loop_step, loop_text_step. cbv zeta.
    destruct (N.eqb_spec width 0) as [|_]; [contradiction|].
    set (sd := u32 (seed + nth (N.to_nat (d mod 10)) seeds 0)).
    set (L := level str width sd).
    rewrite snprintf_holds by exact Hb.
    cbn [fst snd].
    replace (Z.to_N (Z.of_N (N.of_nat (length X)) + Z.of_nat (length L)))
      with (N.of_nat (length (X ++ L))) by (rewrite length_app; lia).
    destruct (Z.ltb_spec (Z.of_nat (length L)) 0) as [|_]; [lia|].
    rewrite orb_false_r.
    destruct (N.leb_spec len (N.of_nat (length (X ++ L)))) as [Hover|Hfit].
    + rewrite length_app in Hover.
      destruct (Nat.ltb_spec
        (length (X ++ L ++ loop_text str width k (d + 1) sd))
        (N.to_nat len)) as [Hlt|_].
      { rewrite !length_app in Hlt. lia. }
      do 3 f_equal. rewrite (app_assoc X L).
      rewrite (take_app_le (X ++ L)); [reflexivity|].
      rewrite length_app. lia.
    + rewrite take_ge by lia.
      rewrite IH; [|exact Hw|lia].
      cbv zeta. rewrite <- app_assoc. reflexivity.
Qed.

Lemma key_text_no_nul p depth width : no_nul (key_text p depth width).
Proof.
  unfold key_text. apply no_nul_app;
    [apply loop_text_no_nul|apply c_str_no_nul].
Qed.

(** [gen_path_key] on a buffer of at least [len] bytes, with a divisor it
    may divide by: the value is 0 when the key and its terminator fit in
    [len] bytes and -1 otherwise, and the buffer holds the key, cut to
    [len - 1] characters. *)
Lemma gen_path_key_holds p buf len depth width :
  width <> 0 \/ depth = 0 ->
  0 < len ->
  (N.to_nat len <= length buf)%nat ->
  gen_path_key p (Some buf) len depth width
  = Returned (if (length (key_text p depth width) <? N.to_nat len)%nat
              then 0 else -1)
      (Some (holds buf (take (N.to_nat len - 1) (key_text p depth width)))).
Proof.
  intros Hw Hlen Hcap. unfold gen_path_key, key_text. cbv zeta.
  set (str := c_str (list_ascii_of_string p)).
  destruct (N.eqb_spec len 0) as [|_]; [lia|].
  rewrite holds_nil by lia.
  assert (Hloop :
    gen_path_key_loop str len width (N.to_nat depth) 0 57 0 (holds buf [])
    = let T := loop_text str width (N.to_nat depth) 0 57 in
      if (length T <? N.to_nat len)%nat
      then inr (N.of_nat (length T), holds buf T)
      else inl (Returned (-1)
                  (Some (holds buf (take (N.to_nat len - 1) T))))).
  { destruct Hw as [Hw| ->].
    - apply (gen_path_key_loop_holds str len width (N.to_nat depth) 0 57 []
               buf Hw). simpl. lia.
    - change (N.to_nat 0) with 0%nat. cbn [gen_path_key_loop loop_text].
      cbv zeta. change (length []) with 0%nat.
      destruct (Nat.ltb_spec 0 (N.to_nat len)); [reflexivity|lia]. }
  rewrite Hloop. cbv zeta.
  set (B := loop_text str width (N.to_nat depth) 0 57).
  rewrite length_app.
  destruct (Nat.ltb_spec (length B) (N.to_nat len)) as [Hfit|Hover].
  - destruct (snprintf (holds buf B) (N.of_nat (length B))
                (len - N.of_nat (length B)) str) as [pk n] eqn:Hs.
    rewrite snprintf_holds in Hs by lia. injection Hs as <- <-.
    replace (Z.to_N (Z.of_N (N.of_nat (length B)) + Z.of_nat (length str)))
      with (N.of_nat (length B + length str)) by lia.
    destruct (Z.ltb_spec (Z.of_nat (length str)) 0) as [|_]; [lia|].
    rewrite orb_false_r.
    destruct (N.leb_spec len (N.of_nat (length B + length str)));
      destruct (Nat.ltb_spec (length B + length str) (N.to_nat len));
      try lia; reflexivity.
  - destruct (Nat.ltb_spec (length B + length str) (N.to_nat len)); [lia|].
    do 3 f_equal. rewrite take_app_le by lia. reflexivity.
Qed.
End GenPathKeyFacts.

(** ** The seed schedule *)

Lemma u32_add_l a b : u32 (u32 a + b) = u32 (a + b).
Proof. unfold u32. apply N.Div0.add_mod_idemp_l. Qed.

Lemma loop_text_from {H : Murmur3} str width iters :
  forall d,
    loop_text str width iters (N.of_nat d) (u32 (57 + seed_sum d))
    = concat (map (fun i => level str width (code_seed i)) (seq d iters)).
Proof.
  induction iters as [|k IH]; intros d; [reflexivity|].
  rewrite loop_text_step. cbn [seq map concat].
  assert (Hs : u32 (u32 (57 + seed_sum d)
                    + nth (N.to_nat (N.of_nat d mod 10)) seeds 0)
               = code_seed d).
  { rewrite u32_add_l. unfold code_seed. cbn [seed_sum].
    rewrite N2Nat.inj_mod, Nat2N.id. change (N.to_nat 10) with 10%nat.
    f_equal. lia. }
  rewrite Hs. f_equal.
  replace (N.of_nat d + 1) with (N.of_nat (S d)) by lia.
  unfold code_seed at 1. apply IH.
Qed.

Lemma loop_text_levels {H : Murmur3} str width depth :
  loop_text str width depth 0 57 = levels code_seed str depth width.
Proof. apply (loop_text_from str width depth 0). Qed.

Lemma key_text_code_key {H : Murmur3} p depth width :
  string_of_list_ascii (key_text p depth width) = code_key p depth width.
Proof. unfold key_text, code_key. by rewrite loop_text_levels. Qed.

(** The seeds of the source and of the specification agree at level 0 and
    nowhere else among the first ten levels. *)
Lemma code_seed_0 : code_seed 0 = spec_seed 0.
Proof. reflexivity. Qed.

Lemma code_seed_closed i :
  code_seed i
  = u32 (57 + foldr N.add 0 (map (fun j => nth (j mod 10)%nat seeds 0)
                               (seq 0 (S i)))).
Proof.
  unfold code_seed. f_equal. f_equal.
  generalize (S i). intros n. induction n as [|k IH]; [reflexivity|].
  rewrite seq_S, map_app, foldr_app. cbn [seed_sum map foldr]. rewrite IH.
  generalize (map (fun j => nth (j mod 10)%nat seeds 0) (seq 0 k)).
  intros l. change (0 + k)%nat with k. rewrite N.add_0_r.
  generalize (nth (k mod 10)%nat seeds 0). clear. intros v.
  induction l as [|x l IHl]; cbn [foldr]; lia.
Qed.

(** With one level the key of the source is the key of the
    specification. *)
Lemma code_key_depth_1 {H : Murmur3} p width :
  code_key p 1 width = spec_key p 1 width.
Proof. reflexivity. Qed.

(** ** When does some [snprintf] overflow *)

Lemma overflows_iff_too_long (texts : list (list ascii)) (len : nat) :
  (0 < len)%nat ->
  (exists k, overflows texts len k) <-> (len <= length (concat texts))%nat.
Proof.
  intros Hlen. split.
  - intros (k & t & Hk & Hcx & Hover). cbv zeta in *.
    rewrite <- (take_drop_middle texts k t Hk).
    rewrite concat_app, length_app. cbn [concat]. rewrite length_app. lia.
  - induction texts as [|t texts IH] using rev_ind;
      [simpl; lia|].
    rewrite concat_app, length_app. cbn [concat]. rewrite app_nil_r.
    intros Hover.
    destruct (Nat.le_gt_cases len (length (concat texts))) as [Hle|Hgt].
    + destruct (IH Hle) as (k & u & Hk & Hcx & Hu). cbv zeta in *.
      pose proof (lookup_lt_Some _ _ _ Hk) as Hlt.
      exists k, u. split; [by rewrite lookup_app_l|].
      cbv zeta. rewrite take_app_le by lia. lia.
    + exists (length texts), t. split; [by rewrite list_lookup_middle|].
      cbv zeta. rewrite take_app_length. lia.
Qed.

Lemma concat_snprintf_texts {H : Murmur3} p depth width :
  concat (snprintf_texts p depth width) = key_text p depth width.
Proof.
  unfold snprintf_texts, key_text. cbv zeta.
  rewrite concat_app, loop_text_levels. cbn [concat]. by rewrite app_nil_r.
Qed.

(** ** The key that is written, and the contract of [gen_path_key] *)

(** C1 (amended).  For every path [p], every depth and every [width >= 1],
    when [gen_path_key] succeeds on a buffer of at least [len] bytes the key
    it has written is [b_0.b_1. ... .b_{d-1}.p], where [b_i] is the
    lower-case hexadecimal value of [(h0 xor h1 xor h2 xor h3) mod width]
    for the hash of [p] seeded with [code_seed i], that is with
    [57 + seeds[0] + ... + seeds[i mod 10]] in 32-bit arithmetic: the seed
    accumulates from level to level. *)
Theorem gen_path_key_writes_code_key {H : Murmur3}
    (p : string) (buf : list ascii) (len depth width : N) :
  1 <= width ->
  (N.to_nat len <= length buf)%nat ->
  rc_of (gen_path_key p (Some buf) len depth width) = Some 0%Z ->
  key_of (gen_path_key p (Some buf) len depth width)
  = Some (code_key p depth width).
Proof.
  intros Hw Hcap.
  destruct (N.eq_dec len 0) as [-> | Hlen].
  { unfold gen_path_key. cbn. discriminate. }
  rewrite gen_path_key_holds by lia.
  destruct (Nat.ltb_spec (length (key_text p depth width)) (N.to_nat len))
    as [Hfit|_]; [|discriminate].
  intros _. cbn [key_of]. rewrite take_ge by lia.
  rewrite c_str_holds by apply key_text_no_nul.
  by rewrite key_text_code_key.
Qed.

Lemma gen_path_key_writes_code_key_witness :
  key_of (gen_path_key (H := Murmur.murmur3) "a/b/c.dat" (Some (zeroed 32)) 32 3 1024)
  = Some (code_key (H := Murmur.murmur3) "a/b/c.dat" 3 1024).
Proof.
  apply (gen_path_key_writes_code_key (H := Murmur.murmur3)).
  - lia.
  - vm_compute. lia.
  - vm_compute. reflexivity.
Defined.

(** C1, as stated, fails at depth 2: the second level of the key written
    for ["a/b/c.dat"] with 16 bins is [1], hashed with seed
    [57 + 104677 + 104681], where the specification's seed [57 + 104681]
    gives [4]. *)
Lemma gen_path_key_not_spec_key :
  let r := gen_path_key (H := Murmur.murmur3) "a/b/c.dat" (Some (zeroed 32)) 32 2 16 in
  rc_of r = Some 0%Z /\
  key_of r = Some "8.1.a/b/c.dat"%string /\
  spec_key (H := Murmur.murmur3) "a/b/c.dat" 2 16 = "8.4.a/b/c.dat"%string /\
  key_of r <> Some (spec_key (H := Murmur.murmur3) "a/b/c.dat" 2 16).
Proof. vm_compute. repeat split; discriminate. Qed.

(** C7 (amended).  For every input whose [width] is not zero (or whose
    [depth] is zero) and whose buffer, when there is one, has at least
    [len] bytes, [gen_path_key] returns 0 or -1; when it returns 0 the
    buffer holds a terminated string of at most [len - 1] characters; and
    it returns -1 exactly when the buffer is null, [len] is 0, or some
    [snprintf] of a level or of the path would overflow. *)
Theorem gen_path_key_contract {H : Murmur3}
    (p : string) (out : option (list ascii)) (len depth width : N) :
  width <> 0 \/ depth = 0 ->
  (forall buf, out = Some buf -> (N.to_nat len <= length buf)%nat) ->
  exists rc out',
    gen_path_key p out len depth width = Returned rc out' /\
    (rc = 0 \/ rc = -1)%Z /\
    (rc = 0%Z ->
       exists b, out' = Some b /\
         (length (c_str b) <= N.to_nat len - 1)%nat /\
         b !! length (c_str b) = Some NUL) /\
    (rc = (-1)%Z <->
       out = None \/ len = 0 \/
       exists k, overflows (snprintf_texts p depth width) (N.to_nat len) k).
Proof.
  intros Hw Hcap. destruct out as [buf|].
  2:{ exists (-1)%Z, None. split; [reflexivity|].
      split; [by right|]. split; [discriminate|]. split; auto. }
  specialize (Hcap buf eq_refl).
  destruct (N.eq_dec len 0) as [-> | Hlen].
  { exists (-1)%Z, (Some buf). split; [reflexivity|].
    split; [by right|]. split; [discriminate|]. split; auto. }
  rewrite gen_path_key_holds by lia.
  assert (Hov : (exists k, overflows (snprintf_texts p depth width)
                             (N.to_nat len) k)
                <-> (N.to_nat len <= length (key_text p depth width))%nat).
  { rewrite overflows_iff_too_long by lia. by rewrite concat_snprintf_texts. }
  set (T := key_text p depth width) in *.
  destruct (Nat.ltb_spec (length T) (N.to_nat len)) as [Hfit|Hover].
  - exists 0%Z, (Some (holds buf (take (N.to_nat len - 1) T))).
    split; [reflexivity|]. split; [by left|]. split.
    + intros _. eexists. split; [reflexivity|].
      rewrite take_ge by lia.
      rewrite c_str_holds by apply key_text_no_nul.
      split; [lia|]. unfold holds. by rewrite list_lookup_middle.
    + split; [discriminate|].
      intros [|[|Hk]]; [discriminate|lia|]. apply Hov in Hk. lia.
  - exists (-1)%Z, (Some (holds buf (take (N.to_nat len - 1) T))).
    split; [reflexivity|]. split; [by right|]. split; [discriminate|].
    split; [|reflexivity]. intros _. right. right. by apply Hov.
Qed.

Lemma gen_path_key_contract_witness :
  exists rc out',
    gen_path_key (H := Murmur.murmur3) "a/b/c.dat" (Some (zeroed 8)) 8 3 1024
    = Returned rc out' /\
    (rc = 0 \/ rc = -1)%Z /\
    (rc = 0%Z ->
       exists b, out' = Some b /\
         (length (c_str b) <= N.to_nat 8 - 1)%nat /\
         b !! length (c_str b) = Some NUL) /\
    (rc = (-1)%Z <->
       Some (zeroed 8) = None \/ 8 = 0 \/
       exists k, overflows (snprintf_texts (H := Murmur.murmur3) "a/b/c.dat" 3 1024)
                   (N.to_nat 8) k).
Proof.
  apply (gen_path_key_contract (H := Murmur.murmur3)).
  - left. lia.
  - intros buf [= <-]. vm_compute. lia.
Defined.

(** C7, as stated for every input, fails when [width] is 0 and [depth] is
    not: the function neither returns 0 nor -1, it divides by zero. *)
Lemma gen_path_key_divides_by_zero :
  gen_path_key (H := Murmur.murmur3) "a/b/c.dat" (Some (zeroed 32)) 32 1 0
  = DivByZero /\
  rc_of (gen_path_key (H := Murmur.murmur3) "a/b/c.dat" (Some (zeroed 32)) 32 1 0)
  = None.
Proof. vm_compute. split; reflexivity. Qed.

(** ** Running the model symbolically *)

Lemma occurs_sound P l :
  occurs P l = true -> exists a b, l = a ++ b /\ P b = true.
Proof.
  induction l as [|e l IH]; simpl.
  - rewrite orb_false_r. intros HP. by exists [], [].
  - intros [HP|Hl]%orb_true_iff.
    + by exists [], (e :: l).
    + destruct (IH Hl) as (a & b & -> & HP). by exists (e :: a), b.
Qed.

Lemma happens_before_scan_sound P q t :
  forall seen,
    happens_before_scan P q seen t = true ->
    forall pre e post, t = pre ++ e :: post -> q e = true ->
      exists a b, seen ++ pre = a ++ b /\ P b = true.
Proof.
  induction t as [|e0 t IH]; intros seen Hscan pre e post Heq Hq.
  - by destruct pre.
  - simpl in Hscan. apply andb_true_iff in Hscan as [Hnow Hlater].
    destruct pre as [|e1 pre]; simplify_eq/=.
    + rewrite Hq in Hnow. simpl in Hnow. rewrite app_nil_r.
      by apply occurs_sound.
    + destruct (IH _ Hlater pre e post eq_refl Hq) as (a & b & Hab & HP).
      exists a, b. split; [|done]. rewrite <- Hab, <- app_assoc. done.
Qed.

Lemma happens_before_by_scan P q t :
  happens_before_scan P q [] t = true -> happens_before P q t.
Proof.
  intros Hscan pre e post Heq Hq.
  apply (happens_before_scan_sound P q t [] Hscan pre e post Heq Hq).
Qed.

Lemma added_app {W A} (s : state W) (r : result W A) t :
  trace (final r) = trace s ++ t -> added s r = t.
Proof. intros Ht. unfold added. rewrite Ht. apply drop_app_length. Qed.

(** Case analysis on the next answer of the world, or on the next test. *)
Ltac split_match :=
  match goal with
  | |- context [match ?e with _ => _ end] =>
      lazymatch e with
      | context [match _ with _ => _ end] => fail
      | _ => destruct e eqn:?
      end
  end.

Ltac reduce_model :=
  cbn -[gen_path_key zeroed PATH_MAX N.to_nat u32_of_int size_t_of_int
        strncpy starts_with_dot String.eqb Z.land Z.eqb Z.ltb N.eqb atoi
        if_set c_str holds open_sync close_sync first_answer env_seen
        reported_rank].

Ltac reduce_model_everywhere :=
  cbn -[gen_path_key zeroed PATH_MAX N.to_nat u32_of_int size_t_of_int
        strncpy starts_with_dot String.eqb Z.land Z.eqb Z.ltb N.eqb atoi
        if_set c_str holds open_sync close_sync first_answer env_seen
        reported_rank] in *.

Ltac run_model :=
  reduce_model; repeat (split_match; reduce_model_everywhere).

Ltac norm_trace :=
  unfold added; cbn [final trace];
  rewrite <- ?app_assoc; rewrite ?drop_app_length; cbn [app].

Section SubscribeFacts.
Context {W : Type} {E : Externals W} {B : Build} {Hd : Headers} {H : Murmur3}.

(** C3.  In every subscribe whose lookup yields an owner rank: if
    [shared_storage] is set or the owner is this rank, subscribe returns
    0 and sends no [dyad.fetch] request; a request is only sent when
    [shared_storage] is clear and the owner differs from this rank, it
    goes to that owner, and no request is sent before the lookup has
    reported an owner. *)
Theorem subscribe_fetches_only_from_remote_owner
    (s : state W) (c : dyad_sync_ctx_t) (consumer_path user_path : string) :
  ctx s = Some c ->
  let r := subscribe_via_flux consumer_path user_path s in
  let t := added s r in
  (forall o, lookup_owner t = Some o ->
     shared_storage c = true \/ u32_of_int o = rank c ->
     returned r = Some 0%Z /\ invocations "flux_rpc_pack" t = 0%nat) /\
  (invocations "flux_rpc_pack" t <> 0%nat ->
     shared_storage c = false /\
     exists o, lookup_owner t = Some o /\ u32_of_int o <> rank c /\
               fetch_targets t = [u32_of_int o]) /\
  happens_before (first_is reports_owner) (calls "flux_rpc_pack") t.
Proof.
  intros Hc.
  unfold subscribe_via_flux, call_gen_path_key, subscribe_done, fopen_real,
    fclose_real, bind, note, deref_ctx, perform, ret, stop, record_event.
  rewrite Hc. run_model.
  all: norm_trace.
  all: try match goal with
       | Hb : _ || _ = _ |- _ =>
           first [ apply orb_true_iff in Hb | apply orb_false_iff in Hb as [Hs Hr] ]
       end.
  all: split; [|split].
  all: try (apply happens_before_by_scan; reflexivity).
  all: try (intros Hn; exfalso; apply Hn; reflexivity).
  all: try (intros ? Ho Hs; cbn in Ho; simplify_eq; fail).
  all: try (intros ? Ho Hs; cbn in Ho; simplify_eq; split; reflexivity).
  all: try (intros ? Ho [Hs'|Hr']; cbn in Ho; simplify_eq;
            apply N.eqb_neq in Hr; congruence).
  all: try (intros _; split; [assumption|]; eexists; split; [reflexivity|];
            split; [by apply N.eqb_neq|reflexivity]).
Qed.
End SubscribeFacts.

Lemma subscribe_fetches_only_from_remote_owner_witness :
  let s := Script.start Script.consumer (Some (Script.ready_ctx 1)) in
  let r := subscribe_via_flux (E := Script.externals) (H := Murmur.murmur3)
             "/managed" "out.dat" s in
  lookup_owner (added s r) = Some 0%Z /\
  fetch_targets (added s r) = [0] /\
  happens_before (first_is reports_owner) (calls "flux_rpc_pack") (added s r).
Proof.
  intros s r.
  destruct (subscribe_fetches_only_from_remote_owner
              (E := Script.externals) (H := Murmur.murmur3)
              s (Script.ready_ctx 1) "/managed" "out.dat" eq_refl)
    as (_ & _ & Hbefore).
  split; [vm_compute; reflexivity|]. split; [vm_compute; reflexivity|].
  exact Hbefore.
Defined.

(** ** The topic buffer of [subscribe_via_flux] and [publish_via_flux] *)

Section TopicBuffer.
Context {H : Murmur3}.

Lemma zeroed_length n : length (zeroed n) = n.
Proof. apply length_replicate. Qed.

Lemma gen_path_key_on_topic up depth width :
  width <> 0 \/ depth = 0 ->
  gen_path_key up (Some (zeroed (N.to_nat PATH_MAX + 1))) PATH_MAX depth width
  = Returned (if (length (key_text up depth width) <? N.to_nat PATH_MAX)%nat
              then 0 else -1)
      (Some (holds (zeroed (N.to_nat PATH_MAX + 1))
               (take (N.to_nat PATH_MAX - 1) (key_text up depth width)))).
Proof.
  intros Hw. apply gen_path_key_holds; [exact Hw|reflexivity|].
  rewrite zeroed_length. lia.
Qed.

(** On that buffer the function stops the process only by dividing by a
    zero [width], in the first iteration of a loop that has one. *)
Lemma gen_path_key_on_topic_traps up depth width :
  gen_path_key up (Some (zeroed (N.to_nat PATH_MAX + 1))) PATH_MAX depth width
  = DivByZero ->
  width = 0 /\ depth <> 0.
Proof.
  intros Htrap.
  destruct (N.eq_dec width 0) as [Hw|Hw], (N.eq_dec depth 0) as [Hd|Hd];
    try (rewrite gen_path_key_on_topic in Htrap by auto; discriminate).
  auto.
Qed.
End TopicBuffer.

Section ReenterFacts.
Context {W : Type} {E : Externals W} {B : Build} {Hd : Headers} {H : Murmur3}.

Ltac stopped_by_division :=
  match goal with
  | Hg : gen_path_key _ _ _ _ _ = DivByZero |- _ =>
      apply gen_path_key_on_topic_traps in Hg; destruct Hg; auto
  end.

Lemma dyad_open_sync_reenter (s : state W) c path dyad_path user_path :
  ctx s = Some c ->
  let r := dyad_open_sync path dyad_path user_path s in
  Forall (fun e => seen_reenter e = Some false) (added s r) /\
  existsb enters_subscribe (added s r) = true /\
  match r with
  | Done _ s' => reenter <$> ctx s' = Some true
  | Stopped f _ => f = SIGFPE /\ key_bins c = 0 /\ key_depth c <> 0
  end.
Proof.
  intros Hc.
  unfold dyad_open_sync, update_ctx, store_ctx, subscribe_via_flux,
    call_gen_path_key, subscribe_done, fopen_real, fclose_real, bind, note,
    deref_ctx, perform, ret, stop, record_event.
  rewrite Hc. run_model.
  all: norm_trace.
  all: split; [repeat constructor|split; [reflexivity|]].
  all: first [reflexivity | stopped_by_division].
Qed.

Lemma dyad_close_sync_reenter (s : state W) c path dyad_path user_path :
  ctx s = Some c ->
  let r := dyad_close_sync path dyad_path user_path s in
  Forall (fun e => seen_reenter e = Some false) (added s r) /\
  existsb enters_publish (added s r) = true /\
  match r with
  | Done _ s' => reenter <$> ctx s' = Some true
  | Stopped f _ => f = SIGFPE /\ key_bins c = 0 /\ key_depth c <> 0
  end.
Proof.
  intros Hc.
  unfold dyad_close_sync, update_ctx, store_ctx, publish_via_flux,
    call_gen_path_key, bind, note, deref_ctx, perform, ret, stop,
    record_event.
  rewrite Hc. run_model.
  all: norm_trace.
  all: split; [repeat constructor|split; [reflexivity|]].
  all: first [reflexivity | stopped_by_division].
Qed.

(** An entry point that finds [ctx->reenter] false passes its call on and
    does nothing else. *)
Lemma entry_points_pass_on_without_reenter (s : state W) c :
  ctx s = Some c ->
  reenter c = false ->
  (forall path oflag va_mode,
     forallb plain_io (added s (open path oflag va_mode s)) = true) /\
  (forall path mode,
     forallb plain_io (added s (fopen path mode s)) = true) /\
  (forall fd, forallb plain_io (added s (close fd s)) = true) /\
  (forall fp, forallb plain_io (added s (fclose fp s)) = true).
Proof.
  intros Hc Hre. destruct c as [[hd|] ? ? ? ? ? ? ? ? ? ?]; cbn in Hre; subst.
  all: repeat split; intros.
  all: unfold open, fopen, close, fclose, is_wronly, get_ctx, bind, perform,
         ret, record_event.
  all: rewrite Hc; destruct DYAD_SYNC_DIR.
  all: try match goal with
         | |- context [(?fd <? 0)%Z] => destruct (fd <? 0)%Z
         | |- context [bool_decide (?fp = None)] => destruct fp
         end.
  all: run_model; norm_trace; reflexivity.
Qed.

(** C6.  In every call of [dyad_open_sync] and of [dyad_close_sync] (with
    a context to work on), every event of the nested [subscribe_via_flux]
    or [publish_via_flux] happens while [ctx->reenter] is false, and when
    the call returns, with whatever value, [ctx->reenter] is true; the
    call returns unless the key generation divides by a zero [key_bins].
    An interposed entry point that is entered while [ctx->reenter] is false
    only passes its call on to the real symbol. *)
Theorem reenter_false_during_coordination
    (s : state W) (c : dyad_sync_ctx_t) (path dyad_path user_path : string) :
  ctx s = Some c ->
  let r1 := dyad_open_sync path dyad_path user_path s in
  let r2 := dyad_close_sync path dyad_path user_path s in
  (Forall (fun e => seen_reenter e = Some false) (added s r1) /\
   existsb enters_subscribe (added s r1) = true /\
   match r1 with
   | Done _ s' => reenter <$> ctx s' = Some true
   | Stopped f _ => f = SIGFPE /\ key_bins c = 0 /\ key_depth c <> 0
   end) /\
  (Forall (fun e => seen_reenter e = Some false) (added s r2) /\
   existsb enters_publish (added s r2) = true /\
   match r2 with
   | Done _ s' => reenter <$> ctx s' = Some true
   | Stopped f _ => f = SIGFPE /\ key_bins c = 0 /\ key_depth c <> 0
   end) /\
  (forall (s0 : state W) c0,
     ctx s0 = Some c0 -> reenter c0 = false ->
     (forall p oflag va_mode,
        forallb plain_io (added s0 (open p oflag va_mode s0)) = true) /\
     (forall p mode, forallb plain_io (added s0 (fopen p mode s0)) = true) /\
     (forall fd, forallb plain_io (added s0 (close fd s0)) = true) /\
     (forall fp, forallb plain_io (added s0 (fclose fp s0)) = true)).
Proof.
  intros Hc. split; [by apply dyad_open_sync_reenter|].
  split; [by apply dyad_close_sync_reenter|].
  apply entry_points_pass_on_without_reenter.
Qed.
End ReenterFacts.

Lemma reenter_false_during_coordination_witness :
  let s := Script.start Script.consumer (Some (Script.ready_ctx 1)) in
  let r1 := dyad_open_sync (E := Script.externals) (H := Murmur.murmur3)
              "/managed/out.dat" "/managed" "out.dat" s in
  Forall (fun e => seen_reenter e = Some false) (added s r1) /\
  (length (added s r1) = 15)%nat /\
  reenter <$> ctx (final r1) = Some true.
Proof.
  intros s r1.
  destruct (reenter_false_during_coordination
              (E := Script.externals) (B := Script.plain_build)
              (Hd := Script.headers) (H := Murmur.murmur3)
              s (Script.ready_ctx 1) "/managed/out.dat" "/managed" "out.dat"
              eq_refl) as [(Hall & _ & _) _].
  split; [exact Hall|]. split; vm_compute; reflexivity.
Defined.

Section KeyFailureIgnored.
Context {W : Type} {E : Externals W} {H : Murmur3}.

End KeyFailureIgnored.


(** ** What [open_sync] and [close_sync] add to a trace *)

Lemma invocations_app name t1 t2 :
  invocations name (t1 ++ t2) = (invocations name t1 + invocations name t2)%nat.
Proof. unfold invocations. by rewrite filter_app, length_app. Qed.

Lemma fopen_only_for_writing_app t1 t2 :
  fopen_only_for_writing (t1 ++ t2)
  = fopen_only_for_writing t1 && fopen_only_for_writing t2.
Proof. apply forallb_app. Qed.

Section SyncSummaries.
Context {W : Type} {E : Externals W} {Hd : Headers} {H : Murmur3}.

Ltac stopped_by_division :=
  match goal with
  | Hg : gen_path_key _ _ _ _ _ = DivByZero |- _ =>
      apply gen_path_key_on_topic_traps in Hg; destruct Hg; auto
  end.

Lemma open_sync_summary (s : state W) (path : string) :
  let r := open_sync path s in
  exists t,
    trace (final r) = trace s ++ t /\
    invocations "open" t = 0%nat /\
    (invocations "fopen" t <= 1)%nat /\
    fopen_only_for_writing t = true /\
    stops_for_a_reason s r.
Proof.
  unfold open_sync, sync_done, dyad_open_sync, update_ctx, store_ctx,
    subscribe_via_flux, call_gen_path_key, subscribe_done, fopen_real,
    fclose_real, get_ctx, bind, note, deref_ctx, perform, ret, stop,
    record_event.
  run_model.
  all: eexists; split; [rewrite <- ?app_assoc; reflexivity|].
  all: split; [reflexivity|]. 
  all: split; [apply Nat.leb_le; reflexivity|].
  all: split; [reflexivity|].
  all: try exact I.
  all: match goal with Hx : ctx _ = _ |- _ => cbn; rewrite Hx end.
  all: first [reflexivity | split; [reflexivity|stopped_by_division]].
Qed.

Lemma close_sync_summary (s : state W) (path : string) :
  let r := close_sync path s in
  exists t,
    trace (final r) = trace s ++ t /\
    invocations "close" t = 0%nat /\
    invocations "fclose" t = 0%nat /\
    stops_for_a_reason s r.
Proof.
  unfold close_sync, sync_done, dyad_close_sync, update_ctx, store_ctx,
    publish_via_flux, call_gen_path_key, get_ctx, bind, note, deref_ctx,
    perform, ret, stop, record_event.
  run_model.
  all: eexists; split; [rewrite <- ?app_assoc; reflexivity|].
  all: split; [reflexivity|].
  all: split; [reflexivity|].
  all: try exact I.
  all: match goal with Hx : ctx _ = _ |- _ => cbn; rewrite Hx end.
  all: first [reflexivity | split; [reflexivity|stopped_by_division]].
Qed.
End SyncSummaries.

(** ** The interposed entry points *)

Ltac count_calls :=
  rewrite ?invocations_app, ?fopen_only_for_writing_app;
  repeat match goal with
    | |- context [invocations ?n (?e :: ?l)] =>
        let v := eval vm_compute in (invocations n (e :: l)) in
        change (invocations n (e :: l)) with v
    | |- context [invocations ?n []] =>
        change (invocations n []) with 0%nat
    | |- context [fopen_only_for_writing (?e :: ?l)] =>
        let v := eval vm_compute in (fopen_only_for_writing (e :: l)) in
        change (fopen_only_for_writing (e :: l)) with v
    | Hx : fopen_only_for_writing _ = true |- _ => rewrite Hx; clear Hx
    end.

Ltac use_traces :=
  unfold added; cbn [final trace];
  repeat match goal with Hx : trace _ = _ |- _ => rewrite Hx; clear Hx end;
  rewrite <- ?app_assoc; rewrite drop_app_length; rewrite ?app_assoc.

(** A pattern that still matches when the trace goes on. *)
Lemma first_is_stable p : stable (first_is p).
Proof. intros [|e a] b; simpl; [discriminate|done]. Qed.

Lemma fsyncs_stream_stable fp : stable (fsyncs_stream fp).
Proof. intros [|e1 [|e2 a]] b; simpl; try discriminate; done. Qed.

(** When the pattern has occurred in the front part of a trace and no
    entry of the front part satisfies [q], the pattern is in front of every
    [q] of the whole trace. *)
Lemma happens_before_front P q front rest :
  stable P ->
  occurs P front = true ->
  forallb (fun e => negb (q e)) front = true ->
  happens_before P q (front ++ rest).
Proof.
  intros HP Hocc Hnone pre e post Heq Hq.
  apply occurs_sound in Hocc as (a & b & -> & Hb).
  apply app_eq_inv in Heq as [(k & Hfront & Hrest)|(k & -> & Hrest)].
  - destruct k as [|e' k]; simplify_eq/=.
    + rewrite app_nil_r in Hfront. subst pre. by exists a, b.
    + exfalso. rewrite Hfront, forallb_app in Hnone.
      apply andb_true_iff in Hnone as [_ Hnone]. simpl in Hnone.
      rewrite Hq in Hnone. discriminate.
  - exists a, (b ++ k). split; [by rewrite app_assoc|by apply HP].
Qed.

Section HookFacts.
Context {W : Type} {E : Externals W} {B : Build} {Hd : Headers} {H : Murmur3}.

Ltac run_hooks :=
  reduce_model;
  repeat first
    [ match goal with
      | |- context [open_sync ?p ?st] =>
          let Hs := fresh "Hsum" in
          pose proof (open_sync_summary st p) as Hs; cbv zeta in Hs;
          destruct (open_sync p st) as [? ?|? ?];
          destruct Hs as (? & ? & ? & ? & ? & ?); reduce_model_everywhere
      | |- context [close_sync ?p ?st] =>
          let Hs := fresh "Hsum" in
          pose proof (close_sync_summary st p) as Hs; cbv zeta in Hs;
          destruct (close_sync p st) as [? ?|? ?];
          destruct Hs as (? & ? & ? & ? & ?); reduce_model_everywhere
      end
    | split_match; reduce_model_everywhere ].

Ltac guard_found_no_context :=
  exfalso;
  repeat match goal with
    | Hb : _ || _ = false |- _ => apply orb_false_iff in Hb as [? ?]
    end;
  simplify_eq/=.

(** The coordination stopped; the guard in front of it had found a
    context. *)
Ltac hook_stopped :=
  match goal with
  | Hr : stop_reason _ (ctx ?s) |- _ =>
      let d := fresh "d" in
      destruct (ctx s) as [d|] eqn:?; [|guard_found_no_context];
      destruct Hr as (? & ? & ?); split; [assumption|];
      exists d; repeat split; assumption
  | Hr : _ = SIGFPE /\ key_bins ?d = 0 /\ _ |- _ =>
      destruct Hr as (? & ? & ?); split; [assumption|];
      exists d; repeat split; assumption
  end.



Ltac split_at_real_call :=
  match goal with
  | |- exists t0 e t1 rv, (?a ++ [?x]) ++ ?b = _ /\ _ =>
      is_var b; exists a, x, b
  | |- exists t0 e t1 rv, ?a ++ [?x] = _ /\ _ =>
      exists a, x, []
  end;
  eexists; split; [rewrite <- ?app_assoc, ?app_nil_r; reflexivity|];
  split; [reflexivity|].

Ltac has_occurred :=
  cbn -[Z.eqb bool_decide];
  rewrite ?Z.eqb_refl;
  repeat match goal with
    | |- context [bool_decide (?x = ?x)] =>
        rewrite (bool_decide_eq_true_2 (x = x) eq_refl)
    end;
  rewrite ?Z.eqb_refl;
  repeat match goal with
    | |- context [(?a =? ?b)%Z] => destruct (a =? b)%Z
    | |- context [bool_decide (?x = ?y)] => destruct (bool_decide (x = y))
    end;
  reflexivity.

Ltac order_holds :=
  first
    [ apply happens_before_by_scan; reflexivity
    | apply happens_before_front;
      [first [apply first_is_stable | apply fsyncs_stream_stable]
      |has_occurred|reflexivity] ].

(** What a call of [close] does: the real [close] and what surrounds it,
    when the call stops, and what is in front of a publish. *)
Lemma close_facts (s : state W) (fd : Z) :
  resolves "close" s ->
  let r := close fd s in
  let t := added s r in
  (exists t0 e t1 rv,
     t = t0 ++ [e] ++ t1 /\
     what e = Ext (c_real_close fd) rv /\
     invocations "close" t1 = 0%nat /\
     (invocations "close" t0 <= 1)%nat /\
     (DYAD_SYNC_DIR = false -> invocations "close" t0 = 0%nat) /\
     (forall v, returned r = Some v -> v = rv)) /\
  hook_stops s r /\
  happens_before (first_is (fsyncs fd)) publishes t /\
  happens_before (first_is (real_closes fd)) publishes t.
Proof.
  unfold resolves, close, sync_directory, is_wronly,
    open_real, close_real, update_ctx, store_ctx, deref_ctx, get_ctx,
    bind, perform, ret, stop, record_event.
  intros Hres.
  destruct (ext (c_dlsym_next "close") (world s)) as [ok w] eqn:Hdl.
  cbn [fst] in Hres. subst ok.
  destruct DYAD_SYNC_DIR.
  all: run_hooks.
  all: try (match goal with
            | Hc : ctx _ = None |- _ => guard_found_no_context
            end).
  all: split; [|split; [first [exact I | hook_stopped]|]].
  all: use_traces.
  all: try (split; order_holds).
  all: split_at_real_call.
  all: count_calls.
  all: split; [lia|]; split; [lia|]; split; [try discriminate; intros _; lia|].
  all: first [intros ? [= <-]; reflexivity | intros ? [=]].
Qed.

Lemma fclose_facts (s : state W) (fp : option FILE) :
  resolves "fclose" s ->
  let r := fclose fp s in
  let t := added s r in
  (exists t0 e t1 rv,
     t = t0 ++ [e] ++ t1 /\
     what e = Ext (c_real_fclose fp) rv /\
     invocations "fclose" t1 = 0%nat /\
     invocations "fclose" t0 = 0%nat /\
     (forall v, returned r = Some v -> v = rv)) /\
  hook_stops s r /\
  happens_before (first_is (fflushes fp)) publishes t /\
  happens_before (fsyncs_stream fp) publishes t /\
  happens_before (first_is (real_fcloses fp)) publishes t.
Proof.
  unfold resolves, fclose, sync_directory, is_wronly,
    open_real, close_real, update_ctx, store_ctx, deref_ctx, get_ctx,
    bind, perform, ret, stop, record_event.
  intros Hres.
  destruct (ext (c_dlsym_next "fclose") (world s)) as [ok w] eqn:Hdl.
  cbn [fst] in Hres. subst ok.
  destruct DYAD_SYNC_DIR.
  all: run_hooks.
  all: try (match goal with
            | Hc : ctx _ = None |- _ => guard_found_no_context
            end).
  all: split; [|split; [first [exact I | hook_stopped]|]].
  all: use_traces.
  all: try (split; [|split]; order_holds).
  all: split_at_real_call.
  all: count_calls.
  all: split; [lia|]; split; [lia|].
  all: first [intros ? [= <-]; reflexivity | intros ? [=]].
Qed.

(** C4.  In every call of [close], whatever belongs to a publish (the
    entry into [publish_via_flux], the packing and the commit of the
    ownership record) has the [fsync] of the descriptor and the real
    [close] of the descriptor in front of it; in every call of [fclose]
    it has the [fflush] of the stream, the [fsync] of the stream's
    descriptor and the real [fclose] in front of it. *)
Theorem publish_after_sync_and_close (s : state W) :
  (forall fd,
     let t := added s (close fd s) in
     happens_before (first_is (fsyncs fd)) publishes t /\
     happens_before (first_is (real_closes fd)) publishes t) /\
  (forall fp,
     let t := added s (fclose fp s) in
     happens_before (first_is (fflushes fp)) publishes t /\
     happens_before (fsyncs_stream fp) publishes t /\
     happens_before (first_is (real_fcloses fp)) publishes t).
Proof.
  split.
  - intros fd.
    destruct (ext (c_dlsym_next "close") (world s)) as [[|] w] eqn:Hdl.
    + assert (Hres : resolves "close" s) by (unfold resolves; by rewrite Hdl).
      destruct (close_facts s fd Hres) as (_ & _ & Hsync & Hclose).
      by split.
    + unfold close, bind, perform, ret, record_event. rewrite Hdl.
      reduce_model. use_traces.
      split; apply happens_before_by_scan; reflexivity.
  - intros fp.
    destruct (ext (c_dlsym_next "fclose") (world s)) as [[|] w] eqn:Hdl.
    + assert (Hres : resolves "fclose" s) by (unfold resolves; by rewrite Hdl).
      destruct (fclose_facts s fp Hres) as (_ & _ & Hflush & Hsync & Hclose).
      by split.
    + unfold fclose, bind, perform, ret, record_event. rewrite Hdl.
      reduce_model. use_traces.
      split; [|split]; apply happens_before_by_scan; reflexivity.
Qed.
End HookFacts.



(** A producer's [close] of a file it wrote does publish, after the sync
    and the real close. *)
Example producer_close_publishes :
  let s := Script.start Script.producer (Some (Script.ready_ctx 0)) in
  let r := close (E := Script.externals) (B := Script.sync_dir_build)
             (Hd := Script.headers) (H := Murmur.murmur3) 5 s in
  returned r = Some 0%Z /\
  existsb publishes (added s r) = true /\
  invocations "close" (added s r) = 2%nat.
Proof. vm_compute. repeat split; reflexivity. Qed.

(** ** Which opens are coordinated *)

Section Gate.
Context {W : Type} {E : Externals W} {Hd : Headers} {H : Murmur3}.

(** [fopen] with a mode other than ["r"] goes straight to the real
    [fopen]. *)
Lemma fopen_other_mode_is_direct (s : state W) path mode :
  mode <> "r"%string ->
  resolves "fopen" s ->
  exists rv s',
    fopen path mode s = Done rv s' /\
    (what <$> added s (fopen path mode s))
    = [Ext (c_dlsym_next "fopen") true; Ext (c_real_fopen path mode) rv].
Proof.
  intros Hmode Hres. unfold resolves in Hres.
  unfold fopen, bind, perform, ret, record_event.
  destruct (ext (c_dlsym_next "fopen") (world s)) as [ok w] eqn:Hdl.
  cbn [fst] in Hres. subst ok.
  destruct (String.eqb_spec mode "r") as [|_]; [contradiction|].
  run_model. eexists _, _. split; [reflexivity|]. by use_traces.
Qed.

(** [open] whose [mode] is not 0, which needs [O_CREAT] in [oflag], goes
    straight to the real [open]. *)
Lemma open_with_mode_is_direct (s : state W) path oflag va_mode :
  open_mode oflag va_mode <> 0%Z ->
  resolves "open" s ->
  exists rv s',
    open path oflag va_mode s = Done rv s' /\
    (what <$> added s (open path oflag va_mode s))
    = [Ext (c_dlsym_next "open") true;
       Ext (c_real_open path oflag (open_mode oflag va_mode)) rv].
Proof.
  intros Hmode Hres. unfold resolves in Hres.
  unfold open, bind, perform, ret, record_event.
  fold (open_mode oflag va_mode).
  destruct (ext (c_dlsym_next "open") (world s)) as [ok w] eqn:Hdl.
  cbn [fst] in Hres. subst ok.
  destruct (Z.eqb_spec (open_mode oflag va_mode) O_RDONLY) as [|_];
    [contradiction|].
  run_model. eexists _, _. split; [reflexivity|]. by use_traces.
Qed.
End Gate.

(** C5, at an input that breaks it: [open (path, O_WRONLY)] on a managed
    path.  The flags are not read-only, yet [mode] is 0 because [O_CREAT] is
    absent, the test [mode != O_RDONLY] lets the call through, and the
    subscribe runs, down to the fetch and the write of the file. *)
Lemma open_write_only_is_coordinated :
  let s := Script.start Script.consumer (Some (Script.ready_ctx 1)) in
  let r := open (E := Script.externals) (Hd := Script.headers)
             (H := Murmur.murmur3) "/managed/out.dat" O_WRONLY 0 s in
  Z.land O_WRONLY O_ACCMODE <> O_RDONLY /\
  existsb enters_subscribe (added s r) = true /\
  invocations "flux_rpc_pack" (added s r) = 1%nat /\
  invocations "fwrite" (added s r) = 1%nat /\
  last (what <$> added s r)
  = Some (Ext (c_real_open "/managed/out.dat" O_WRONLY 0) 3%Z).
Proof. vm_compute. repeat split; try reflexivity. discriminate. Qed.

(** ** Initialisation *)

(** Reduction of the monad and of nothing else. *)
Ltac reduce_monad :=
  lazy beta iota zeta delta
    [bind ret stop perform note get_ctx deref_ctx store_ctx update_ctx
     record_event world ctx trace final returned added negb].

Ltac run_monad := reduce_monad; repeat (split_match; reduce_monad).

Section InitFacts.
Context {W : Type} {E : Externals W} {B : Build} {Hd : Headers}.

(** [dyad_sync_init] on a thread that has no context yet: it stops only
    when [malloc] fails, and otherwise leaves a context whose fields come
    from the environment and from flux as follows. *)
Lemma dyad_sync_init_from_null (s : state W) :
  ctx s = None ->
  let r := dyad_sync_init s in
  let t := added s r in
  match r with
  | Done _ s' =>
      exists c,
        ctx s' = Some c /\
        initialized c = true /\
        reenter c = true /\
        first_answer flux_open_answer t = Some (h c) /\
        rank c = reported_rank t (rank dyad_sync_ctx_t_default) /\
        key_depth c = if_set (env_seen "DYAD_KEY_DEPTH" t) 3 /\
        key_bins c = if_set (env_seen "DYAD_KEY_BINS" t) 1024
  | Stopped f _ => f = Exited 1
  end.
Proof.
  destruct s as [w0 c0 t0]. cbn [ctx]. intros ->.
  unfold dyad_sync_init. destruct DYAD_SYNC_START.
  all: run_monad.
  all: try reflexivity.
  all: eexists; split; [reflexivity|].
  all: rewrite <- ?app_assoc; rewrite drop_app_length.
  all: repeat split; reflexivity.
Qed.

(** C8 (amended).  When [dyad_sync_init] has completed on a thread that
    had no context, [ctx->initialized] is true for every outcome of
    opening the transport; [ctx->h] is what [flux_open] returned, a valid
    handle exactly when opening succeeded and null otherwise; and
    [ctx->rank] is the rank [flux_get_rank] reported when that call
    succeeded, and the default's otherwise. *)
Theorem init_completes_with_or_without_transport (s : state W) :
  ctx s = None ->
  let r := dyad_sync_init s in
  let t := added s r in
  match r with
  | Done _ s' =>
      exists c,
        ctx s' = Some c /\
        initialized c = true /\
        first_answer flux_open_answer t = Some (h c) /\
        rank c = reported_rank t (rank dyad_sync_ctx_t_default)
  | Stopped f _ => f = Exited 1
  end.
Proof.
  intros Hc. pose proof (dyad_sync_init_from_null s Hc) as Hinit.
  cbv zeta in *. destruct (dyad_sync_init s) as [u s'|f s']; [|exact Hinit].
  destruct Hinit as (c & Hctx & Hi & _ & Hh & Hr & _).
  by exists c.
Qed.
End InitFacts.

Lemma init_completes_with_or_without_transport_witness :
  let s := Script.start Script.consumer None in
  let r := dyad_sync_init (E := Script.externals) (B := Script.plain_build)
             (Hd := Script.headers) s in
  match r with
  | Done _ s' =>
      exists c,
        ctx s' = Some c /\
        initialized c = true /\
        first_answer flux_open_answer (added s r) = Some (h c) /\
        rank c = reported_rank (added s r)
                   (rank (dyad_sync_ctx_t_default (Headers := Script.headers)))
  | Stopped f _ => f = Exited 1
  end.
Proof.
  intros s.
  exact (init_completes_with_or_without_transport
           (E := Script.externals) (B := Script.plain_build)
           (Hd := Script.headers) s eq_refl).
Defined.

(** C8, as stated, fails when flux cannot be opened: the initialisation
    completes with [initialized] set and a null handle, and the rank is
    the default's, not one obtained from the transport. *)
Lemma init_without_transport_is_initialized :
  let s := Script.start Script.no_flux None in
  let r := dyad_sync_init (E := Script.externals) (B := Script.plain_build)
             (Hd := Script.headers) s in
  returned r = Some tt /\
  (initialized <$> ctx (final r)) = Some true /\
  (h <$> ctx (final r)) = Some None /\
  first_answer flux_get_rank_answer (added s r) = Some None.
Proof. vm_compute. repeat split; reflexivity. Qed.

(** C9, at an input that breaks it: with [DYAD_KEY_BINS=0] in the
    environment the initialisation completes with [key_bins = 0]
    ([atoi] of a string without digits gives 0 as well), and the next
    read-only [fopen] of a managed path divides by zero in [gen_path_key]
    before the real [fopen] is reached. *)
Lemma init_accepts_zero_key_bins :
  let s := Script.start Script.zero_bins None in
  let r := dyad_sync_init (E := Script.externals) (B := Script.plain_build)
             (Hd := Script.headers) s in
  let r' := fopen (E := Script.externals) (Hd := Script.headers)
              (H := Murmur.murmur3) (Some "/managed/out.dat"%string) "r"
              (final r) in
  returned r = Some tt /\
  (key_bins <$> ctx (final r)) = Some 0 /\
  (key_depth <$> ctx (final r)) = Some 3 /\
  if_set (Some "abc"%string) 1024 = 0 /\
  if_set (Some "0"%string) 3 = 0 /\
  (exists s', r' = Stopped SIGFPE s') /\
  invocations "fopen" (added (final r) r') = 0%nat.
Proof. vm_compute. repeat split; try reflexivity. by eexists. Qed.

(** The examples of the specification's table of golden values, as the
    model computes them. *)
Example murmur_fox :
  Murmur.hash (list_ascii_of_string "The quick brown fox jumps over the lazy dog") 43 0
  = Hash128 0xbc071b6c 0xe34bbc7b 0xc49a9347 0x7a433ca9.
Proof. vm_compute. reflexivity. Qed.

Example gen_path_key_abc_3_1024 :
  key_of (gen_path_key (H := Murmur.murmur3) "a/b/c.dat" (Some (zeroed 64)) 64 3 1024)
  = Some "118.71.153.a/b/c.dat"%string.
Proof. vm_compute. reflexivity. Qed.

Example gen_path_key_abc_1_16 :
  key_of (gen_path_key (H := Murmur.murmur3) "a/b/c.dat" (Some (zeroed 64)) 64 1 16)
  = Some "8.a/b/c.dat"%string.
Proof. vm_compute. reflexivity. Qed.

Example gen_path_key_empty_3_1024 :
  gen_path_key (H := Murmur.murmur3) "" (Some (zeroed 13)) 13 3 1024
  = Returned 0 (Some (list_ascii_of_string "2cd.18a.214." ++ [NUL])).
Proof. vm_compute. reflexivity. Qed.

Example fmt_x_examples :
  fmt_x 0 = list_ascii_of_string "0" /\
  fmt_x 0x1d1 = list_ascii_of_string "1d1" /\
  fmt_x 0xffffffff = list_ascii_of_string "ffffffff".
Proof. vm_compute. repeat split; reflexivity. Qed.

Example atoi_examples :
  atoi "42" = 42%Z /\ atoi "  -7x" = (-7)%Z /\ atoi "abc" = 0%Z /\
  atoi "" = 0%Z /\ u32_of_int (atoi "-1") = 4294967295.
Proof. vm_compute. repeat split; reflexivity. Qed.
